(** * Backup (recovery) codes of authplz: the controller of
    [modules/2fa/backup/backup.go], embedded function by function.

    The controller is stateless Go code that talks to three external
    libraries (crypto/rand, entropy-mnemonics, bcrypt) and to a [Storer]
    interface.  The libraries are section variables, the [Storer] is a type
    class, every Go function becomes a Rocq function that passes the state of
    its collaborators explicitly, and a run-time panic is a value of
    [outcome]. *)

From Stdlib Require Import ZArith List String Ascii Bool Arith Lia.
Import ListNotations.

Local Open Scope string_scope.

(** ** The fragment of Go the controller relies on *)
Module Go.

(** A Go [error] is modelled by its message; the nil error is [None]. *)
Definition error := string.

(** [[]byte] *)
Definition bytes := list Byte.byte.

(** A call either returns or panics. *)
Inductive outcome (A : Type) : Type :=
| Ret (a : A)
| Panic (msg : string).
Arguments Ret {A} a.
Arguments Panic {A} msg.

Definition returns {A} (o : outcome A) : bool :=
  match o with Ret _ => true | Panic _ => false end.

(** [fmt.Errorf] with a constant format string. *)
Definition Errorf (msg : string) : error := msg.

(** [make([]byte, size)]: a zeroed buffer; a negative length panics.
    Allocation limits of the runtime are not modelled. *)
Definition make_bytes (size : Z) : outcome bytes :=
  if (size <? 0)%Z then Panic "makeslice: len out of range"
  else Ret (repeat Byte.x00 (Z.to_nat size)).

(** [s[:hi]] on a slice whose capacity equals its length (which is what
    [strings.Split] returns): the bound is checked against the length. *)
Definition slice_to {A} (s : list A) (hi : Z) : outcome (list A) :=
  if ((0 <=? hi) && (hi <=? Z.of_nat (List.length s)))%Z
  then Ret (firstn (Z.to_nat hi) s)
  else Panic "slice bounds out of range".

(** [s[lo:]] *)
Definition slice_from {A} (s : list A) (lo : Z) : outcome (list A) :=
  if ((0 <=? lo) && (lo <=? Z.of_nat (List.length s)))%Z
  then Ret (skipn (Z.to_nat lo) s)
  else Panic "slice bounds out of range".

(** [s[i] = v] for an index inside the slice. *)
Fixpoint set_index {A} (s : list A) (i : nat) (v : A) : list A :=
  match s, i with
  | [], _ => []
  | _ :: t, O => v :: t
  | h :: t, S j => h :: set_index t j v
  end.

(** [strings.Split(s, sep)] for a non-empty separator: the substrings
    between the non-overlapping occurrences of [sep], scanned from the
    left.  [skip] counts the bytes of a matched separator still to be
    dropped, [cur] is the substring collected so far. *)
Fixpoint split_from (sep s : string) (skip : nat) (cur : string) : list string :=
  match s with
  | EmptyString => [cur]
  | String c rest =>
      match skip with
      | S k => split_from sep rest k cur
      | O =>
          if String.prefix sep s
          then cur :: split_from sep rest (String.length sep - 1) EmptyString
          else split_from sep rest 0 (cur ++ String c EmptyString)
      end
  end.

(** With an empty separator Go explodes the string into its characters
    (bytes here); the controller only ever splits on a single space. *)
Definition Split (s sep : string) : list string :=
  match sep with
  | EmptyString => map (fun c => String c EmptyString) (list_ascii_of_string s)
  | _ => split_from sep s 0 EmptyString
  end.

(** [strings.Join(elems, sep)] *)
Fixpoint Join (elems : list string) (sep : string) : string :=
  match elems with
  | [] => EmptyString
  | [e] => e
  | e :: rest => e ++ sep ++ Join rest sep
  end.

(** *** Function bodies

    The body of a Go function runs on the state [W] of its collaborators.
    A statement either goes on with a value ([inl]), or has executed a
    [return] with the function's results ([inr]), or has panicked. *)
Definition body (W T A : Type) : Type := W -> outcome (A + T) * W.

Definition pure {W T A} (a : A) : body W T A :=
  fun w => (Ret (inl a), w).

(** [return t] *)
Definition return_ {W T A} (t : T) : body W T A :=
  fun w => (Ret (inr t), w).

Definition bind {W T A B} (m : body W T A) (k : A -> body W T B) : body W T B :=
  fun w =>
    match m w with
    | (Ret (inl a), w') => k a w'
    | (Ret (inr t), w') => (Ret (inr t), w')
    | (Panic msg, w') => (Panic msg, w')
    end.

(** An expression that may panic and touches no state. *)
Definition eval {W T A} (o : outcome A) : body W T A :=
  fun w =>
    match o with
    | Ret a => (Ret (inl a), w)
    | Panic msg => (Panic msg, w)
    end.

(** A call of a collaborator that cannot panic. *)
Definition call {W T A} (f : W -> A * W) : body W T A :=
  fun w => let '(a, w') := f w in (Ret (inl a), w').

(** A call that may panic. *)
Definition call_outcome {W T A} (f : W -> outcome A * W) : body W T A :=
  fun w =>
    match f w with
    | (Ret a, w') => (Ret (inl a), w')
    | (Panic msg, w') => (Panic msg, w')
    end.

(** [for _, x := range xs { f x }] *)
Fixpoint for_each {W T A} (xs : list A) (f : A -> body W T unit) : body W T unit :=
  match xs with
  | [] => pure tt
  | x :: rest => bind (f x) (fun _ => for_each rest f)
  end.

(** [for _, x := range xs { ... }] where the loop body updates a local
    variable [v] of the function. *)
Fixpoint for_fold {W T A V} (xs : list A) (v : V) (f : A -> V -> body W T V) : body W T V :=
  match xs with
  | [] => pure v
  | x :: rest => bind (f x v) (fun v' => for_fold rest v' f)
  end.

(** The whole function: falling off the end of [m] returns its value. *)
Definition run {W T} (m : body W T T) (w : W) : outcome T * W :=
  match m w with
  | (Ret (inl t), w') => (Ret t, w')
  | (Ret (inr t), w') => (Ret t, w')
  | (Panic msg, w') => (Panic msg, w')
  end.

Declare Scope body_scope.
Delimit Scope body_scope with body.
Notation "x <- m ;; k" := (bind m (fun x => k))
  (at level 61, m at next level, right associativity) : body_scope.
Notation "' pat <- m ;; k" := (bind m (fun x => match x with pat => k end))
  (at level 61, pat pattern, m at next level, right associativity) : body_scope.
Notation "m ;; k" := (bind m (fun _ => k))
  (at level 61, right associativity) : body_scope.

End Go.
Import Go.

(** ** Constants of the package *)

Definition recoveryKeyLen : Z := 128 / 8.
Definition recoveryNameLen : Z := 3.
Definition numRecoveryKeys : Z := 5.
Definition backupHashRounds : Z := 12.

(** ** The data of the package *)

(** [BackupKey], the structure handed to the API. *)
Record BackupKey : Type := mkBackupKey {
  Name : string;
  Code : string;
  Hash : string
}.

(** The zero value [make([]BackupKey, n)] fills the slice with. *)
Definition zeroBackupKey : BackupKey := mkBackupKey "" "" "".

(** Modelled from the spec: the [Code] interface of the package
    ([GetName], [GetHashedSecret], [IsUsed], [SetUsed]) is declared outside
    [backup.go]; the record below is the BackupCode of the data model (user,
    name, hashed secret, used flag) with the identity the Storer gave it.  The
    issuance timestamp is informational and left out.  A value of this type
    is the controller's own copy of a stored record. *)
Record BackupCode : Type := mkCode {
  codeID : nat;
  codeUser : string;
  codeName : string;
  codeHash : string;
  codeUsed : bool
}.

Definition GetName (c : BackupCode) : string := codeName c.
Definition GetHashedSecret (c : BackupCode) : string := codeHash c.
Definition IsUsed (c : BackupCode) : bool := codeUsed c.
Definition SetUsed (c : BackupCode) : BackupCode :=
  mkCode (codeID c) (codeUser c) (codeName c) (codeHash c) true.

(** The tests the read-only operations apply to a fetched code. *)
Definition unused (c : BackupCode) : bool := negb (IsUsed c).

Definition unused_named (name : string) (c : BackupCode) : bool :=
  (GetName c =? name)%string && negb (IsUsed c).

(** Modelled from the spec: the [Storer] interface is declared outside
    [backup.go]; its four operations are those of the Storer contract.  Every
    operation may fail and may change the store, so each takes and returns
    the store state.  The record identifiers returned by [AddBackupCode] and
    [UpdateBackupCode] are dropped by the controller and are not modelled.
    [GetBackupCodeByName] answers [None] for Go's nil.  The values handed
    back implement [Code], so the type assertions [c.(Code)] of the
    controller succeed. *)
Class Storer (S : Type) : Type := {
  AddBackupCode : S -> string -> string -> string -> option error * S;
  GetBackupCodes : S -> string -> list BackupCode * option error * S;
  GetBackupCodeByName : S -> string -> string -> option BackupCode * option error * S;
  UpdateBackupCode : S -> BackupCode -> option error * S
}.

(** The name and the secret phrase [ValidateCode] reads off a code string
    of at least [recoveryNameLen] words. *)
Definition code_name (codeString : string) : string :=
  Join (firstn (Z.to_nat recoveryNameLen) (Split codeString " ")) " ".

Definition code_secret (codeString : string) : string :=
  Join (skipn (Z.to_nat recoveryNameLen) (Split codeString " ")) " ".

(** The words of a code string, as [ValidateCode] counts them. *)
Definition words (codeString : string) : nat := List.length (Split codeString " ").

(** ** The controller *)

Section Controller.

(** crypto/rand: asked for [n] bytes, the source answers with the bytes
    it could produce and an optional error, and moves to its next state. *)
Context {R : Type}.
Variable rand_source : R -> nat -> bytes * option error * R.

(** entropy-mnemonics with the English dictionary: [ToPhrase] gives the
    words of a phrase, [FromString] the bytes of a phrase. *)
Variable ToPhrase : bytes -> list string * option error.
Variable FromString : string -> bytes * option error.

(** bcrypt: hashing draws its salt from the random source. *)
Variable GenerateFromPassword : R -> bytes -> Z -> bytes * option error * R.
Variable CompareHashAndPassword : bytes -> bytes -> option error.

Context {S : Type} `{Storer S}.

(** [rand.Read(buf)]: at most [len(buf)] bytes are written to the front
    of the buffer, and their number is returned. *)
Definition rand_Read (r : R) (buf : bytes) : Z * bytes * option error * R :=
  let '(data, err, r') := rand_source r (List.length buf) in
  let n := Nat.min (List.length data) (List.length buf) in
  (Z.of_nat n, (firstn n data ++ skipn n buf)%list, err, r').

(** [Phrase.String()] *)
Definition Phrase_String (p : list string) : string := Join p " ".

Definition cryptoBytes (size : Z) (r : R) : outcome (bytes * option error) * R :=
  match make_bytes size with
  | Panic m => (Panic m, r)
  | Ret buf =>
      let '(n, buf, err, r') := rand_Read r buf in
      match err with
      | Some e => (Ret (buf, Some e), r')
      | None =>
          if negb (n =? recoveryKeyLen)%Z
          then (Ret (buf, Some (Errorf "BackupController.CreateCodes entropy error")), r')
          else (Ret (buf, None), r')
      end
  end.

(** The idiom [if err != nil { return results }]. *)
Definition on_error {W T} (err : option error) (results : error -> T) : body W T unit :=
  match err with
  | Some e => return_ (results e)
  | None => pure tt
  end.

(** The world of [CreateCodes]: the random source and the store. *)
Definition with_rand {A} (f : R -> A * R) : R * S -> A * (R * S) :=
  fun w => let '(a, r') := f (fst w) in (a, (r', snd w)).

Definition with_store {A} (f : S -> A * S) : R * S -> A * (R * S) :=
  fun w => let '(a, s') := f (snd w) in (a, (fst w, s')).

Local Open Scope body_scope.

Definition CreateCodes (userid : string) (w : R * S)
  : outcome (list BackupKey * option error) * (R * S) :=
  let keys := repeat zeroBackupKey (Z.to_nat numRecoveryKeys) in
  run (
    (* Generate raw codes *)
    keys <- for_fold (seq 0 (List.length keys)) keys (fun i keys =>
      '(code, err) <- call_outcome (with_rand (cryptoBytes recoveryKeyLen)) ;;
      on_error err (fun e => (keys, Some e)) ;;
      '(name, err) <- call_outcome (with_rand (cryptoBytes recoveryNameLen)) ;;
      on_error err (fun e => (keys, Some e)) ;;
      (* Generate mnemonic codes *)
      '(mnemonicCode, err) <- pure (ToPhrase code) ;;
      on_error err (fun e => (keys, Some e)) ;;
      '(mnemonicName, err) <- pure (ToPhrase name) ;;
      on_error err (fun e => (keys, Some e)) ;;
      (* Generate hashes *)
      '(hash, err) <- call (with_rand (fun r => GenerateFromPassword r code backupHashRounds)) ;;
      on_error err (fun e => (keys, Some e)) ;;
      pure (set_index keys i
              (mkBackupKey (Phrase_String mnemonicName) (Phrase_String mnemonicCode)
                           (string_of_list_byte hash)))) ;;
    (* Save to database *)
    for_each keys (fun key =>
      err <- call (with_store (fun st => AddBackupCode st userid (Name key) (Hash key))) ;;
      on_error err (fun e => (keys, Some e))) ;;
    return_ (keys, None)) w.

Definition IsSupported (userid : string) (st : S) : outcome bool * S :=
  run (
    (* Fetch codes for a user *)
    '(codes, err) <- call (fun st => GetBackupCodes st userid) ;;
    on_error err (fun _ => false) ;;
    (* Check for an active code *)
    available <- for_fold codes false (fun code available =>
      if negb (IsUsed code) then pure true else pure available) ;;
    return_ available) st.

Definition ValidateName (userid name : string) (st : S)
  : outcome (bool * option error) * S :=
  run (
    (* Fetch associated codes with for the provided user *)
    '(codes, err) <- call (fun st => GetBackupCodes st userid) ;;
    on_error err (fun e => (false, Some e)) ;;
    (* Check provided code against enabled codes *)
    for_each codes (fun code =>
      if (GetName code =? name)%string && negb (IsUsed code)
      then return_ (true, None)
      else pure tt) ;;
    (* No matching code found *)
    return_ (false, None)) st.

Definition ValidateCode (userid codeString : string) (st : S)
  : outcome (bool * option error) * S :=
  run (
    (* Split codeString into words *)
    let phrase := Split codeString " " in
    (* Fetch key name *)
    nameWords <- eval (slice_to phrase recoveryNameLen) ;;
    let name := Join nameWords " " in
    (* Translate mnemonic form to bytes *)
    keyWords <- eval (slice_from phrase recoveryNameLen) ;;
    let mnemonicKey := Join keyWords " " in
    '(key, _) <- pure (FromString mnemonicKey) ;;
    (* Fetch associated codes with for the provided user *)
    '(c, err) <- call (fun st => GetBackupCodeByName st userid name) ;;
    on_error err (fun e => (false, Some e)) ;;
    match c with
    | None => return_ (false, None)
    | Some code =>
        (* Check code matches *)
        if negb (GetName code =? name)%string || IsUsed code
        then return_ (false, None)
        else
          (* Check provided code against stored hash *)
          match CompareHashAndPassword (list_byte_of_string (GetHashedSecret code)) key with
          | Some _ => return_ (false, None)
          | None =>
              (* Mark code as disabled *)
              let code := SetUsed code in
              (* Update code in database *)
              err <- call (fun st => UpdateBackupCode st code) ;;
              on_error err (fun e => (false, Some e)) ;;
              return_ (true, None)
          end
    end) st.

(** *** The two Storer calls of [ValidateCode]

    [ValidateCode] reaches the Storer twice: once to look the code up and
    once to write the used flag back.  The two halves of its body are named
    here; [ValidateCode] is their sequence. *)

(** Up to and including [code.SetUsed()]: goes on with the marked copy of
    the matching code, or returns. *)
Definition ValidateCode_lookup (userid codeString : string)
  : body S (bool * option error) BackupCode :=
  let phrase := Split codeString " " in
  nameWords <- eval (slice_to phrase recoveryNameLen) ;;
  let name := Join nameWords " " in
  keyWords <- eval (slice_from phrase recoveryNameLen) ;;
  let mnemonicKey := Join keyWords " " in
  '(key, _) <- pure (FromString mnemonicKey) ;;
  '(c, err) <- call (fun st => GetBackupCodeByName st userid name) ;;
  on_error err (fun e => (false, Some e)) ;;
  match c with
  | None => return_ (false, None)
  | Some code =>
      if negb (GetName code =? name)%string || IsUsed code
      then return_ (false, None)
      else
        match CompareHashAndPassword (list_byte_of_string (GetHashedSecret code)) key with
        | Some _ => return_ (false, None)
        | None => pure (SetUsed code)
        end
  end.

(** From [UpdateBackupCode] to the end. *)
Definition ValidateCode_update (code : BackupCode)
  : body S (bool * option error) (bool * option error) :=
  err <- call (fun st => UpdateBackupCode st code) ;;
  on_error err (fun e => (false, Some e)) ;;
  return_ (true, None).

(** What the first half decides on a code string of at least
    [recoveryNameLen] words, read off the answer of the Storer: the marked
    copy of the matching code ([inl]), or the results returned ([inr]). *)
Definition lookup_verdict (codeString : string)
  (answer : option BackupCode * option error) : BackupCode + (bool * option error) :=
  match answer with
  | (_, Some e) => inr (false, Some e)
  | (None, None) => inr (false, None)
  | (Some code, None) =>
      if negb (GetName code =? code_name codeString)%string || IsUsed code
      then inr (false, None)
      else
        match CompareHashAndPassword (list_byte_of_string (GetHashedSecret code))
                (fst (FromString (code_secret codeString))) with
        | Some _ => inr (false, None)
        | None => inl (SetUsed code)
        end
  end.

(** [n] validations of the same code string, one after the other. *)
Fixpoint validations (n : nat) (userid codeString : string) (st : S)
  : list (outcome (bool * option error)) * S :=
  match n with
  | O => ([], st)
  | Datatypes.S k =>
      let '(o, st1) := ValidateCode userid codeString st in
      let '(os, st2) := validations k userid codeString st1 in
      (o :: os, st2)
  end.

(** *** Concurrent validations

    The controller keeps no state of its own, so concurrent invocations
    meet only at the Storer.  An invocation is a thread that has not yet
    called the Storer, or holds the matching code between its two Storer
    calls, or has finished; a step of a thread runs it up to and including
    its next Storer call, which the Storer performs atomically. *)
Inductive thread : Type :=
| Called (userid codeString : string)
| Matched (code : BackupCode)
| Finished (result : outcome (bool * option error)).

Definition step_thread (t : thread) (st : S) : thread * S :=
  match t with
  | Called userid codeString =>
      match ValidateCode_lookup userid codeString st with
      | (Ret (inl code), st') => (Matched code, st')
      | (Ret (inr result), st') => (Finished (Ret result), st')
      | (Panic msg, st') => (Finished (Panic msg), st')
      end
  | Matched code =>
      let '(result, st') := run (ValidateCode_update code) st in
      (Finished result, st')
  | Finished result => (Finished result, st)
  end.

(** An interleaving is the order in which the threads take their steps. *)
Fixpoint run_schedule (schedule : list nat) (ts : list thread) (st : S)
  : list thread * S :=
  match schedule with
  | [] => (ts, st)
  | i :: later =>
      match nth_error ts i with
      | Some t =>
          let '(t', st') := step_thread t st in
          run_schedule later (set_index ts i t') st'
      | None => run_schedule later ts st
      end
  end.

(** The operations of the controller, and the world one of them leaves. *)
Inductive operation : Type :=
| OpCreateCodes (userid : string)
| OpIsSupported (userid : string)
| OpValidateName (userid name : string)
| OpValidateCode (userid codeString : string).

Definition perform (op : operation) (w : R * S) : R * S :=
  match op with
  | OpCreateCodes userid => snd (CreateCodes userid w)
  | OpIsSupported userid => (fst w, snd (IsSupported userid (snd w)))
  | OpValidateName userid name => (fst w, snd (ValidateName userid name (snd w)))
  | OpValidateCode userid codeString => (fst w, snd (ValidateCode userid codeString (snd w)))
  end.

End Controller.

Arguments cryptoBytes {R} rand_source size r.
Arguments rand_Read {R} rand_source r buf.
Arguments CreateCodes {R} rand_source ToPhrase GenerateFromPassword {S _} userid w.
Arguments IsSupported {S _} userid st.
Arguments ValidateName {S _} userid name st.
Arguments ValidateCode FromString CompareHashAndPassword {S _} userid codeString st.
Arguments ValidateCode_lookup FromString CompareHashAndPassword {S _} userid codeString.
Arguments ValidateCode_update {S _} code.
Arguments validations FromString CompareHashAndPassword {S _} n userid codeString st.
Arguments step_thread FromString CompareHashAndPassword {S _} t st.
Arguments run_schedule FromString CompareHashAndPassword {S _} schedule ts st.
Arguments perform {R} rand_source ToPhrase FromString GenerateFromPassword
  CompareHashAndPassword {S _} op w.

(** What the threads of a finished run returned. *)
Definition returned_true (t : thread) : bool :=
  match t with
  | Finished (Ret (true, _)) => true
  | _ => false
  end.

Definition returned_false (t : thread) : bool :=
  match t with
  | Finished (Ret (false, _)) => true
  | _ => false
  end.

Definition finished (t : thread) : bool :=
  match t with
  | Finished _ => true
  | _ => false
  end.

Definition count {A} (p : A -> bool) (l : list A) : nat := List.length (filter p l).

(** How far a thread has come: the Storer calls it has behind it. *)
Definition rank (t : thread) : nat :=
  match t with
  | Called _ _ => 0
  | Matched _ => 1
  | Finished _ => 2
  end.

(** ** A store that follows the Storer contract *)

(** Modelled from the spec: the implementation of the [Storer] lives outside
    [backup.go].  [MemStore] is the table of code records of the Storer
    contract: a row holds user, name, hashed secret and the used flag, and the
    position of a row is its identity.  [AddBackupCode] creates a new unused
    record and refuses a name that is already among the user's unused codes;
    [GetBackupCodes] lists the user's codes, used ones included;
    [GetBackupCodeByName] is an exact match on user and name;
    [UpdateBackupCode] is the conditional write: it sets used to true only if
    the stored flag is currently false, and fails otherwise. *)
Record row : Type := mkRow {
  rowUser : string;
  rowName : string;
  rowHash : string;
  rowUsed : bool
}.

Definition MemStore : Type := list row.

Definition to_code (i : nat) (r : row) : BackupCode :=
  mkCode i (rowUser r) (rowName r) (rowHash r) (rowUsed r).

Definition mark_used (r : row) : row :=
  mkRow (rowUser r) (rowName r) (rowHash r) true.

(** The rows of a table from position [i] on, as the codes handed out. *)
Fixpoint codes_from (i : nat) (st : MemStore) : list BackupCode :=
  match st with
  | [] => []
  | r :: rest => to_code i r :: codes_from (Datatypes.S i) rest
  end.

Definition owned_by (userid : string) (c : BackupCode) : bool :=
  (codeUser c =? userid)%string.

Definition named (userid name : string) (c : BackupCode) : bool :=
  (codeUser c =? userid)%string && (codeName c =? name)%string.

Definition mem_GetBackupCodes (st : MemStore) (userid : string)
  : list BackupCode * option error * MemStore :=
  (filter (owned_by userid) (codes_from 0 st), None, st).

Definition mem_GetBackupCodeByName (st : MemStore) (userid name : string)
  : option BackupCode * option error * MemStore :=
  (find (named userid name) (codes_from 0 st), None, st).

Definition mem_AddBackupCode (st : MemStore) (userid name hash : string)
  : option error * MemStore :=
  if existsb (fun c => named userid name c && negb (codeUsed c)) (codes_from 0 st)
  then (Some "duplicate name among the active codes of the user", st)
  else (None, (st ++ [mkRow userid name hash false])%list).

Definition mem_UpdateBackupCode (st : MemStore) (c : BackupCode)
  : option error * MemStore :=
  match nth_error st (codeID c) with
  | None => (Some "no such record", st)
  | Some r =>
      if rowUsed r then (Some "code already used", st)
      else if codeUsed c then (None, set_index st (codeID c) (mark_used r))
      else (Some "not a mark-used update", st)
  end.

(** The used flag of the record at position [i]. *)
Definition used_at (st : MemStore) (i : nat) : bool :=
  match nth_error st i with
  | Some r => rowUsed r
  | None => false
  end.

#[export] Instance MemStorer : Storer MemStore := {
  AddBackupCode := mem_AddBackupCode;
  GetBackupCodes := mem_GetBackupCodes;
  GetBackupCodeByName := mem_GetBackupCodeByName;
  UpdateBackupCode := mem_UpdateBackupCode
}.

(** *** The threads of a race for one code

    While the code is unused every thread is still [waiting]: it has not
    called the Storer, or holds the marked copy [code0].  Once the code is
    consumed the threads are [settled]: waiting, or finished with one of the
    three results a thread of the race can return.  [st0] is the table
    before, [st1] the table after the code is consumed. *)
Definition waiting (userid codeString : string) (code0 : BackupCode) (t : thread) : Prop :=
  t = Called userid codeString \/ t = Matched code0.

Definition settled (userid codeString : string) (code0 : BackupCode) (t : thread) : Prop :=
  waiting userid codeString code0 t
  \/ t = Finished (Ret (true, None))
  \/ t = Finished (Ret (false, None))
  \/ t = Finished (Ret (false, Some "code already used")).

Definition race_invariant (userid codeString : string) (code0 : BackupCode)
  (st0 st1 : MemStore) (ts : list thread) (st : MemStore) : Prop :=
  (st = st0 /\ Forall (waiting userid codeString code0) ts)
  \/ (st = st1 /\ Forall (settled userid codeString code0) ts
      /\ count returned_true ts = 1%nat).

(** Reasoning about function bodies: unfold the combinators. *)
Ltac unfold_body :=
  unfold on_error, run, bind, pure, return_, call, call_outcome, eval,
    with_rand, with_store;
  cbn [fst snd].

(** A Storer behind an unreliable connection: [outages] says, for each of
    the coming calls, whether the store is unreachable when the call is
    made.  An unreachable store answers with an error and changes nothing. *)
Record FlakyStore : Type := mkFlaky {
  table : MemStore;
  outages : list bool
}.

Definition unreachable : error := "store unreachable".

Definition flaky {A} (failed : A) (op : MemStore -> A * MemStore) (st : FlakyStore)
  : A * FlakyStore :=
  match outages st with
  | true :: later => (failed, mkFlaky (table st) later)
  | false :: later => let '(a, t) := op (table st) in (a, mkFlaky t later)
  | [] => let '(a, t) := op (table st) in (a, mkFlaky t [])
  end.

#[export] Instance FlakyStorer : Storer FlakyStore := {
  AddBackupCode st userid name hash :=
    flaky (Some unreachable) (fun t => mem_AddBackupCode t userid name hash) st;
  GetBackupCodes st userid :=
    flaky ([], Some unreachable) (fun t => mem_GetBackupCodes t userid) st;
  GetBackupCodeByName st userid name :=
    flaky (None, Some unreachable) (fun t => mem_GetBackupCodeByName t userid name) st;
  UpdateBackupCode st c :=
    flaky (Some unreachable) (fun t => mem_UpdateBackupCode t c) st
}.

(** A Storer whose update is an unconditional write of the flag it is given:
    the table of [MemStore] without the condition on the stored flag. *)
Record LaxStore : Type := mkLax { lax_table : MemStore }.

Definition lax_UpdateBackupCode (st : MemStore) (c : BackupCode) : option error * MemStore :=
  match nth_error st (codeID c) with
  | None => (Some "no such record", st)
  | Some r =>
      (None, set_index st (codeID c)
               (mkRow (rowUser r) (rowName r) (rowHash r) (codeUsed c)))
  end.

Definition lax {A} (op : MemStore -> A * MemStore) (st : LaxStore) : A * LaxStore :=
  let '(a, t) := op (lax_table st) in (a, mkLax t).

#[export] Instance LaxStorer : Storer LaxStore := {
  AddBackupCode st userid name hash := lax (fun t => mem_AddBackupCode t userid name hash) st;
  GetBackupCodes st userid := lax (fun t => mem_GetBackupCodes t userid) st;
  GetBackupCodeByName st userid name :=
    lax (fun t => mem_GetBackupCodeByName t userid name) st;
  UpdateBackupCode st c := lax (fun t => lax_UpdateBackupCode t c) st
}.

(** ** Stand-ins for the external libraries

    Small executable implementations of the three libraries, used to run the
    controller on concrete inputs. *)
Module Demo.

(** A random source that reads from a finite tape and fails when the tape
    runs out. *)
Definition tape_source (tape : bytes) (n : nat) : bytes * option error * bytes :=
  (firstn n tape,
   if (List.length tape <? n)%nat then Some "unexpected EOF" else None,
   skipn n tape).

(** A two-letter word per byte, over the letters a to p. *)
Definition letter (n : N) : ascii := ascii_of_N (97 + n).

Definition word_of_byte (b : Byte.byte) : string :=
  let n := Byte.to_N b in
  String (letter (n / 16)) (String (letter (n mod 16)) EmptyString).

Definition digit_of (a : ascii) : option N :=
  let n := N_of_ascii a in
  if ((97 <=? n) && (n <? 113))%N then Some (n - 97)%N else None.

Definition byte_of_word (w : string) : option Byte.byte :=
  match w with
  | String a (String b EmptyString) =>
      match digit_of a, digit_of b with
      | Some x, Some y => Byte.of_N (16 * x + y)
      | _, _ => None
      end
  | _ => None
  end.

Fixpoint bytes_of_words (ws : list string) : option bytes :=
  match ws with
  | [] => Some []
  | w :: rest =>
      match byte_of_word w, bytes_of_words rest with
      | Some b, Some bs => Some (b :: bs)
      | _, _ => None
      end
  end.

Definition ToPhrase (entropy : bytes) : list string * option error :=
  match entropy with
  | [] => ([], Some "input has len 0")
  | _ => (map word_of_byte entropy, None)
  end.

Definition FromString (str : string) : bytes * option error :=
  match bytes_of_words (Split str " ") with
  | Some bs => (bs, None)
  | None => ([], Some "word not found in dictionary")
  end.

(** A hash that is the password behind a marker, without salt. *)
Definition hash_of (password : bytes) : bytes := (Byte.x24 :: password)%list.

Definition GenerateFromPassword (r : bytes) (password : bytes) (cost : Z)
  : bytes * option error * bytes :=
  (hash_of password, None, r).

Definition CompareHashAndPassword (hashed password : bytes) : option error :=
  if (string_of_list_byte hashed =? string_of_list_byte (hash_of password))%string
  then None
  else Some "hashedPassword is not the hash of the given password".

Definition ValidateCode {S} `{Storer S} := ValidateCode (S := S) FromString CompareHashAndPassword.
Definition CreateCodes {S} `{Storer S} :=
  CreateCodes (S := S) tape_source ToPhrase GenerateFromPassword.

(** The secret [0x01 0x02] under its words, and a table for user alice. *)
Definition secret : bytes := [Byte.x01; Byte.x02].
Definition secret_hash : string := string_of_list_byte (hash_of secret).

Definition step_thread {S} `{Storer S} := step_thread (S := S) FromString CompareHashAndPassword.
Definition run_schedule {S} `{Storer S} :=
  run_schedule (S := S) FromString CompareHashAndPassword.
Definition validations {S} `{Storer S} := validations (S := S) FromString CompareHashAndPassword.
Definition perform {S} `{Storer S} :=
  perform (S := S) tape_source ToPhrase FromString GenerateFromPassword CompareHashAndPassword.

(** A table whose only record holds the hash of the empty byte string. *)
Definition empty_secret_table : MemStore :=
  [ mkRow "alice" "ab cd ef" (string_of_list_byte (hash_of [])) false ].

Definition alice_table : MemStore :=
  [ mkRow "alice" "ab cd ef" secret_hash false;
    mkRow "alice" "gh ij kl" secret_hash true;
    mkRow "bob" "ab cd ef" secret_hash false ].

End Demo.

(** ** Further definitions *)

(** The space characters of a code string. *)
Fixpoint count_spaces (s : string) : nat :=
  match s with
  | EmptyString => 0
  | String c rest => (if Ascii.eqb c " " then 1 else 0) + count_spaces rest
  end.

Example Split_phrase : Split "not a real phrase" " " = ["not"; "a"; "real"; "phrase"].
Proof. reflexivity. Qed.

Example Split_empty : Split "" " " = [""].
Proof. reflexivity. Qed.

Example Split_double_space : Split "a  b " " " = ["a"; ""; "b"; ""].
Proof. reflexivity. Qed.

Example Join_phrase : Join ["not"; "a"; "real"] " " = "not a real".
Proof. reflexivity. Qed.

Example demo_phrase : Demo.ToPhrase Demo.secret = (["ab"; "ac"], None).
Proof. reflexivity. Qed.

Example demo_decode : Demo.FromString "ab ac" = (Demo.secret, None).
Proof. reflexivity. Qed.

Example demo_decode_fails : Demo.FromString "phrase" = ([], Some "word not found in dictionary").
Proof. reflexivity. Qed.

Example demo_validate_once :
  Demo.ValidateCode "alice" "ab cd ef ab ac" Demo.alice_table
  = (Ret (true, None),
     [ mkRow "alice" "ab cd ef" Demo.secret_hash true;
       mkRow "alice" "gh ij kl" Demo.secret_hash true;
       mkRow "bob" "ab cd ef" Demo.secret_hash false ]).
Proof. reflexivity. Qed.

Example demo_validate_wrong_secret :
  Demo.ValidateCode "alice" "ab cd ef ab ad" Demo.alice_table
  = (Ret (false, None), Demo.alice_table).
Proof. reflexivity. Qed.

Example demo_validate_name :
  ValidateName "alice" "ab cd ef" Demo.alice_table = (Ret (true, None), Demo.alice_table)
  /\ ValidateName "alice" "gh ij kl" Demo.alice_table = (Ret (false, None), Demo.alice_table).
Proof. split; reflexivity. Qed.

Example demo_supported :
  IsSupported "alice" Demo.alice_table = (Ret true, Demo.alice_table)
  /\ IsSupported "carol" Demo.alice_table = (Ret false, Demo.alice_table).
Proof. split; reflexivity. Qed.

(** ** The entropy draw *)

Section Entropy.

Context {R : Type}.
Variable rand_source : R -> nat -> bytes * option error * R.

Lemma rand_Read_count (r : R) (buf : bytes) :
  (0 <= fst (fst (fst (rand_Read rand_source r buf))) <= Z.of_nat (List.length buf))%Z.
Proof.
  unfold rand_Read.
  destruct (rand_source r (List.length buf)) as [[data err] r']; cbn [fst].
  lia.
Qed.

(** A draw of [recoveryKeyLen] bytes that the source serves in full is
    accepted. *)
Lemma cryptoBytes_key_ok (r r' : R) (buf buf' : bytes) :
  make_bytes recoveryKeyLen = Ret buf ->
  rand_Read rand_source r buf = (recoveryKeyLen, buf', None, r') ->
  cryptoBytes rand_source recoveryKeyLen r = (Ret (buf', None), r').
Proof.
  intros Hmake Hread. unfold cryptoBytes.
  rewrite Hmake, Hread. reflexivity.
Qed.

Lemma cryptoBytes_key_returns (r : R) :
  exists buf err r', cryptoBytes rand_source recoveryKeyLen r = (Ret (buf, err), r').
Proof.
  unfold cryptoBytes.
  change (make_bytes recoveryKeyLen) with (Ret (A := bytes) (repeat Byte.x00 16)).
  cbv beta iota.
  destruct (rand_Read rand_source r (repeat Byte.x00 16)) as [[[n buf] err] r'].
  destruct err as [e|].
  - exists buf, (Some e), r'. reflexivity.
  - destruct (negb (n =? recoveryKeyLen)%Z); eauto.
Qed.

Lemma cryptoBytes_name_fails (r : R) :
  exists buf e r', cryptoBytes rand_source recoveryNameLen r = (Ret (buf, Some e), r').
Proof.
  unfold cryptoBytes.
  change (make_bytes recoveryNameLen) with (Ret (A := bytes) (repeat Byte.x00 3)).
  cbv beta iota.
  pose proof (rand_Read_count r (repeat Byte.x00 3)) as Hn.
  destruct (rand_Read rand_source r (repeat Byte.x00 3)) as [[[n buf] err] r'].
  cbn [fst] in Hn. rewrite repeat_length in Hn.
  destruct err as [e|].
  - exists buf, e, r'. reflexivity.
  - assert (Hne : (n =? recoveryKeyLen)%Z = false).
    { apply Z.eqb_neq. unfold recoveryKeyLen. cbn. lia. }
    rewrite Hne. cbn [negb]. eauto.
Qed.

(** C4: whatever size other than [recoveryKeyLen] is asked for, a draw that
    the random source serves without error and in full (the byte count equals
    the size of the buffer) makes [cryptoBytes] return the entropy error,
    because the count is compared with [recoveryKeyLen]; and the draw of
    [recoveryNameLen] bytes that [CreateCodes] makes for the name returns an
    error for every state of the random source. *)
Theorem cryptoBytes_entropy_error :
  (forall (size : Z) (r r' : R) (buf buf' : bytes),
      size <> recoveryKeyLen ->
      make_bytes size = Ret buf ->
      rand_Read rand_source r buf = (size, buf', None, r') ->
      cryptoBytes rand_source size r
      = (Ret (buf', Some "BackupController.CreateCodes entropy error"), r'))
  /\ (forall r : R, exists buf e r',
         cryptoBytes rand_source recoveryNameLen r = (Ret (buf, Some e), r')).
Proof.
  split.
  - intros size r r' buf buf' Hsize Hmake Hread. unfold cryptoBytes.
    rewrite Hmake, Hread.
    apply Z.eqb_neq in Hsize. rewrite Hsize. reflexivity.
  - apply cryptoBytes_name_fails.
Qed.

End Entropy.

Lemma cryptoBytes_entropy_error_witness :
  (3 <> recoveryKeyLen)%Z
  /\ make_bytes 3 = Ret [Byte.x00; Byte.x00; Byte.x00]
  /\ rand_Read Demo.tape_source [Byte.x0a; Byte.x0b; Byte.x0c; Byte.x0d]
       [Byte.x00; Byte.x00; Byte.x00]
     = (3%Z, [Byte.x0a; Byte.x0b; Byte.x0c], None, [Byte.x0d])
  /\ cryptoBytes Demo.tape_source 3 [Byte.x0a; Byte.x0b; Byte.x0c; Byte.x0d]
     = (Ret ([Byte.x0a; Byte.x0b; Byte.x0c],
             Some "BackupController.CreateCodes entropy error"), [Byte.x0d]).
Proof.
  assert (H1 : (3 <> recoveryKeyLen)%Z) by (vm_compute; discriminate).
  assert (H2 : make_bytes 3 = Ret [Byte.x00; Byte.x00; Byte.x00]) by reflexivity.
  assert (H3 : rand_Read Demo.tape_source [Byte.x0a; Byte.x0b; Byte.x0c; Byte.x0d]
                 [Byte.x00; Byte.x00; Byte.x00]
               = (3%Z, [Byte.x0a; Byte.x0b; Byte.x0c], None, [Byte.x0d])) by reflexivity.
  split; [exact H1 | split; [exact H2 | split; [exact H3 | ]]].
  exact (proj1 (cryptoBytes_entropy_error Demo.tape_source) 3%Z _ _ _ _ H1 H2 H3).
Defined.

Example cryptoBytes_negative_size_panics :
  cryptoBytes Demo.tape_source (-1) [Byte.x0a]
  = (Panic "makeslice: len out of range", [Byte.x0a]).
Proof. reflexivity. Qed.

Example cryptoBytes_key_draw :
  fst (cryptoBytes Demo.tape_source recoveryKeyLen (repeat Byte.x07 20))
  = Ret (repeat Byte.x07 16, None).
Proof. reflexivity. Qed.

(** ** Issuing codes *)

Section Issuing.

Context {R : Type}.
Variable rand_source : R -> nat -> bytes * option error * R.
Variable ToPhrase : bytes -> list string * option error.
Variable GenerateFromPassword : R -> bytes -> Z -> bytes * option error * R.
Context {S : Type} `{Storer S}.

(** The first pass of the generating loop ends at one of its two entropy
    draws. *)
Lemma CreateCodes_stops_at_entropy (userid : string) (r : R) (st : S) :
  exists (e : error) (r' : R),
    CreateCodes rand_source ToPhrase GenerateFromPassword userid (r, st)
    = (Ret (repeat zeroBackupKey 5, Some e), (r', st)).
Proof.
  unfold CreateCodes.
  change (Z.to_nat numRecoveryKeys) with 5%nat.
  cbn [repeat List.length seq for_fold].
  destruct (cryptoBytes_key_returns rand_source r) as (buf & err & r1 & Hkey).
  unfold_body. rewrite Hkey.
  destruct err as [e|]; cbv beta iota; cbn [fst snd].
  - exists e, r1. reflexivity.
  - destruct (cryptoBytes_name_fails rand_source r1) as (nbuf & e & r2 & Hname).
    rewrite Hname. cbv beta iota.
    exists e, r2. reflexivity.
Qed.

(** C2: [CreateCodes] has no successful run.  For every user, every state of
    the random source and every store, the call returns an error together
    with the five zero-valued keys it started from, whose names and codes are
    all the empty string, and the store is left as it was, no code having
    been handed to [AddBackupCode]; so no run returns a nil error. *)
Theorem CreateCodes_never_succeeds (userid : string) (r : R) (st : S) :
  (exists (e : error) (r' : R),
      CreateCodes rand_source ToPhrase GenerateFromPassword userid (r, st)
      = (Ret (repeat zeroBackupKey 5, Some e), (r', st)))
  /\ (forall (keys : list BackupKey) (w' : R * S),
         CreateCodes rand_source ToPhrase GenerateFromPassword userid (r, st)
         <> (Ret (keys, None), w')).
Proof.
  destruct (CreateCodes_stops_at_entropy userid r st) as (e & r' & Hrun).
  split.
  - now exists e, r'.
  - intros keys w'. rewrite Hrun. discriminate.
Qed.

End Issuing.

Example CreateCodes_with_working_entropy :
  Demo.CreateCodes "alice" (repeat Byte.x07 200, Demo.alice_table)
  = (Ret (repeat zeroBackupKey 5, Some "BackupController.CreateCodes entropy error"),
     (repeat Byte.x07 181, Demo.alice_table)).
Proof. reflexivity. Qed.

(** ** Validating a code: the shape of a run *)

Lemma slice_to_short {A} (s : list A) (hi : Z) :
  (Z.of_nat (List.length s) < hi)%Z -> slice_to s hi = Panic "slice bounds out of range".
Proof.
  intros Hlt. unfold slice_to.
  replace (hi <=? Z.of_nat (List.length s))%Z with false by (symmetry; apply Z.leb_gt; lia).
  now rewrite andb_false_r.
Qed.

Lemma slice_to_long {A} (s : list A) (hi : Z) :
  (0 <= hi <= Z.of_nat (List.length s))%Z -> slice_to s hi = Ret (firstn (Z.to_nat hi) s).
Proof.
  intros [H0 H1]. unfold slice_to.
  apply Z.leb_le in H0, H1. now rewrite H0, H1.
Qed.

Lemma slice_from_long {A} (s : list A) (lo : Z) :
  (0 <= lo <= Z.of_nat (List.length s))%Z -> slice_from s lo = Ret (skipn (Z.to_nat lo) s).
Proof.
  intros [H0 H1]. unfold slice_from.
  apply Z.leb_le in H0, H1. now rewrite H0, H1.
Qed.

Section Validation.

Variable FromString : string -> bytes * option error.
Variable CompareHashAndPassword : bytes -> bytes -> option error.
Context {S : Type} `{Storer S}.

(** [ValidateCode] is its two halves, one after the other. *)
Lemma ValidateCode_phases (userid codeString : string) (st : S) :
  ValidateCode FromString CompareHashAndPassword userid codeString st
  = run (bind (ValidateCode_lookup FromString CompareHashAndPassword userid codeString) ValidateCode_update) st.
Proof.
  unfold ValidateCode, ValidateCode_lookup, ValidateCode_update.
  unfold_body.
  destruct (slice_to (Split codeString " ") recoveryNameLen) as [nameWords|]; [|reflexivity].
  destruct (slice_from (Split codeString " ") recoveryNameLen) as [keyWords|]; [|reflexivity].
  destruct (FromString (Join keyWords " ")) as [key derr].
  destruct (GetBackupCodeByName st userid (Join nameWords " ")) as [[c err] st1].
  destruct err as [e|]; [reflexivity|].
  destruct c as [code|]; [|reflexivity].
  destruct (negb (GetName code =? Join nameWords " ")%string || IsUsed code); [reflexivity|].
  destruct (CompareHashAndPassword (list_byte_of_string (GetHashedSecret code)) key);
    [reflexivity|].
  destruct (UpdateBackupCode st1 (SetUsed code)) as [[e|] st2]; reflexivity.
Qed.

(** Fewer than [recoveryNameLen] words: the slice expression
    [phrase[:recoveryNameLen]] panics before anything else happens. *)
Lemma ValidateCode_lookup_short (userid codeString : string) (st : S) :
  (words codeString < 3)%nat ->
  ValidateCode_lookup FromString CompareHashAndPassword userid codeString st = (Panic "slice bounds out of range", st).
Proof.
  intros Hshort. unfold ValidateCode_lookup. unfold_body.
  rewrite slice_to_short; [reflexivity|].
  unfold words in Hshort. unfold recoveryNameLen. lia.
Qed.

Lemma ValidateCode_short (userid codeString : string) (st : S) :
  (words codeString < 3)%nat ->
  ValidateCode FromString CompareHashAndPassword userid codeString st = (Panic "slice bounds out of range", st).
Proof.
  intros Hshort. rewrite ValidateCode_phases.
  unfold run, bind. now rewrite ValidateCode_lookup_short.
Qed.

Lemma ValidateCode_lookup_long (userid codeString : string) (st : S) :
  (3 <= words codeString)%nat ->
  ValidateCode_lookup FromString CompareHashAndPassword userid codeString st
  = (Ret (lookup_verdict FromString CompareHashAndPassword codeString
            (fst (GetBackupCodeByName st userid (code_name codeString)))),
     snd (GetBackupCodeByName st userid (code_name codeString))).
Proof.
  intros Hlong. unfold ValidateCode_lookup, lookup_verdict, code_name, code_secret.
  unfold words in Hlong.
  unfold_body.
  rewrite slice_to_long, slice_from_long by (unfold recoveryNameLen; lia).
  destruct (FromString _) as [key derr]. cbn [fst].
  destruct (GetBackupCodeByName _ _ _) as [[c err] st1]. cbn [fst snd].
  destruct err as [e|]; [now destruct c|].
  destruct c as [code|]; [|reflexivity].
  destruct (negb _ || IsUsed code); [reflexivity|].
  destruct (CompareHashAndPassword _ key); reflexivity.
Qed.

(** The whole of [ValidateCode] on such a code string. *)
Lemma ValidateCode_long (userid codeString : string) (st : S) :
  (3 <= words codeString)%nat ->
  ValidateCode FromString CompareHashAndPassword userid codeString st
  = match lookup_verdict FromString CompareHashAndPassword codeString
            (fst (GetBackupCodeByName st userid (code_name codeString))) with
    | inr result => (Ret result, snd (GetBackupCodeByName st userid (code_name codeString)))
    | inl code =>
        match UpdateBackupCode
                (snd (GetBackupCodeByName st userid (code_name codeString))) code with
        | (Some e, st2) => (Ret (false, Some e), st2)
        | (None, st2) => (Ret (true, None), st2)
        end
    end.
Proof.
  intros Hlong. rewrite ValidateCode_phases.
  unfold run, bind at 1. rewrite ValidateCode_lookup_long by assumption.
  destruct (lookup_verdict _ _ _ _) as [code|result]; [|reflexivity].
  unfold ValidateCode_update. unfold_body.
  destruct (UpdateBackupCode _ code) as [[e|] st2]; reflexivity.
Qed.

End Validation.

(** ** The read-only operations *)

Section Reading.

Context {S : Type} `{Storer S}.

Lemma available_loop (T : Type) (codes : list BackupCode) (available : bool) (st : S) :
  for_fold (T := T) codes available
    (fun code available => if negb (IsUsed code) then pure true else pure available) st
  = (Ret (inl (available || existsb unused codes)), st).
Proof.
  revert available. induction codes as [|c codes IH]; intros available; cbn [for_fold existsb].
  - unfold pure. now rewrite orb_false_r.
  - unfold bind. unfold unused at 1.
    destruct (negb (IsUsed c)); unfold pure at 1; rewrite IH; cbn [orb].
    + now rewrite orb_true_r.
    + reflexivity.
Qed.

Lemma name_loop (codes : list BackupCode) (name : string) (st : S) :
  for_each codes
    (fun code =>
       if (GetName code =? name)%string && negb (IsUsed code)
       then return_ (true, None (A := error)) else pure tt) st
  = if existsb (unused_named name) codes
    then (Ret (inr (true, None)), st)
    else (Ret (inl tt), st).
Proof.
  induction codes as [|c codes IH]; cbn [for_each existsb].
  - reflexivity.
  - unfold bind. unfold unused_named at 1.
    destruct ((GetName c =? name)%string && negb (IsUsed c)); cbn [orb].
    + reflexivity.
    + unfold pure at 1. exact IH.
Qed.

Lemma IsSupported_eq (userid : string) (st : S) :
  IsSupported userid st
  = (Ret match snd (fst (GetBackupCodes st userid)) with
         | Some _ => false
         | None => existsb unused (fst (fst (GetBackupCodes st userid)))
         end,
     snd (GetBackupCodes st userid)).
Proof.
  unfold IsSupported, run, bind at 1, call.
  destruct (GetBackupCodes st userid) as [[codes err] st1]. cbn [fst snd].
  destruct err as [e|].
  - reflexivity.
  - unfold bind at 1, on_error, pure at 1, bind at 1.
    rewrite available_loop. reflexivity.
Qed.

Lemma ValidateName_eq (userid name : string) (st : S) :
  ValidateName userid name st
  = (Ret match snd (fst (GetBackupCodes st userid)) with
         | Some e => (false, Some e)
         | None => (existsb (unused_named name) (fst (fst (GetBackupCodes st userid))), None)
         end,
     snd (GetBackupCodes st userid)).
Proof.
  unfold ValidateName, run, bind at 1, call.
  destruct (GetBackupCodes st userid) as [[codes err] st1]. cbn [fst snd].
  destruct err as [e|].
  - reflexivity.
  - unfold bind at 1, on_error, pure at 1, bind at 1.
    rewrite name_loop.
    destruct (existsb (unused_named name) codes); reflexivity.
Qed.

(** C7: [IsSupported] answers true exactly when the fetch of the user's
    codes succeeds and one of the fetched codes is unused; when
    [GetBackupCodes] answers with an error, [IsSupported] answers false and
    the error goes no further. *)
Theorem IsSupported_iff_unused_code
  (userid : string) (st st' : S) (codes : list BackupCode) (err : option error) :
  GetBackupCodes st userid = (codes, err, st') ->
  exists b : bool,
    IsSupported userid st = (Ret b, st')
    /\ (b = true <-> err = None /\ exists c, In c codes /\ IsUsed c = false)
    /\ (err <> None -> b = false).
Proof.
  intros Hfetch. rewrite IsSupported_eq, Hfetch. cbn [fst snd].
  eexists. split; [reflexivity|].
  destruct err as [e|].
  - split; [|reflexivity].
    split; [discriminate | intros [Hnone _]; discriminate].
  - split; [|intros Hne; now contradiction Hne].
    rewrite existsb_exists. unfold unused.
    split.
    + intros (c & Hin & Hc). split; [reflexivity|].
      exists c. split; [assumption|]. now apply negb_true_iff.
    + intros (_ & c & Hin & Hc). exists c. split; [assumption|].
      now apply negb_true_iff.
Qed.

(** C8: when the fetch succeeds, [ValidateName] returns [(true, nil)] exactly
    when one of the user's fetched codes carries that very name and is
    unused, and [(false, nil)] otherwise; when the fetch fails, the error of
    the Storer is returned to the caller. *)
Theorem ValidateName_iff_unused_name
  (userid name : string) (st st' : S) (codes : list BackupCode) (err : option error) :
  GetBackupCodes st userid = (codes, err, st') ->
  (err = None ->
   exists b : bool,
     ValidateName userid name st = (Ret (b, None), st')
     /\ (b = true <-> exists c, In c codes /\ GetName c = name /\ IsUsed c = false))
  /\ (forall e, err = Some e -> ValidateName userid name st = (Ret (false, Some e), st')).
Proof.
  intros Hfetch. rewrite ValidateName_eq, Hfetch. cbn [fst snd].
  split.
  - intros ->. eexists. split; [reflexivity|].
    rewrite existsb_exists. unfold unused_named.
    split.
    + intros (c & Hin & Hc). apply andb_true_iff in Hc as [Hname Hused].
      exists c. repeat split; [assumption | now apply String.eqb_eq | now apply negb_true_iff].
    + intros (c & Hin & Hname & Hused). exists c. split; [assumption|].
      apply andb_true_iff. split; [now apply String.eqb_eq | now apply negb_true_iff].
  - intros e ->. reflexivity.
Qed.

Lemma ValidateName_state (userid name : string) (st : S) :
  snd (ValidateName userid name st) = snd (GetBackupCodes st userid).
Proof. now rewrite ValidateName_eq. Qed.

Lemma IsSupported_state (userid : string) (st : S) :
  snd (IsSupported userid st) = snd (GetBackupCodes st userid).
Proof. now rewrite IsSupported_eq. Qed.

End Reading.

Lemma IsSupported_iff_unused_code_witness :
  GetBackupCodes Demo.alice_table "alice"
  = ([ mkCode 0 "alice" "ab cd ef" Demo.secret_hash false;
       mkCode 1 "alice" "gh ij kl" Demo.secret_hash true ], None, Demo.alice_table)
  /\ exists b : bool,
       IsSupported "alice" Demo.alice_table = (Ret b, Demo.alice_table)
       /\ (b = true <->
           None = None (A := error)
           /\ exists c, In c [ mkCode 0 "alice" "ab cd ef" Demo.secret_hash false;
                               mkCode 1 "alice" "gh ij kl" Demo.secret_hash true ]
                        /\ IsUsed c = false)
       /\ (None <> None (A := error) -> b = false).
Proof.
  assert (Hfetch : GetBackupCodes Demo.alice_table "alice"
                   = ([ mkCode 0 "alice" "ab cd ef" Demo.secret_hash false;
                        mkCode 1 "alice" "gh ij kl" Demo.secret_hash true ],
                      None, Demo.alice_table)) by reflexivity.
  split; [exact Hfetch|].
  exact (IsSupported_iff_unused_code "alice" Demo.alice_table _ _ _ Hfetch).
Defined.

Example IsSupported_unreachable_store :
  IsSupported "alice" (mkFlaky Demo.alice_table [true])
  = (Ret false, mkFlaky Demo.alice_table []).
Proof. reflexivity. Qed.

Lemma ValidateName_iff_unused_name_witness :
  (GetBackupCodes Demo.alice_table "alice"
   = ([ mkCode 0 "alice" "ab cd ef" Demo.secret_hash false;
        mkCode 1 "alice" "gh ij kl" Demo.secret_hash true ], None, Demo.alice_table)
   /\ exists b : bool,
        ValidateName "alice" "ab cd ef" Demo.alice_table = (Ret (b, None), Demo.alice_table)
        /\ (b = true <->
            exists c, In c [ mkCode 0 "alice" "ab cd ef" Demo.secret_hash false;
                             mkCode 1 "alice" "gh ij kl" Demo.secret_hash true ]
                      /\ GetName c = "ab cd ef" /\ IsUsed c = false))
  /\ (GetBackupCodes (mkFlaky Demo.alice_table [true]) "alice"
      = ([], Some unreachable, mkFlaky Demo.alice_table [])
      /\ ValidateName "alice" "ab cd ef" (mkFlaky Demo.alice_table [true])
         = (Ret (false, Some unreachable), mkFlaky Demo.alice_table [])).
Proof.
  assert (Hfetch : GetBackupCodes Demo.alice_table "alice"
                   = ([ mkCode 0 "alice" "ab cd ef" Demo.secret_hash false;
                        mkCode 1 "alice" "gh ij kl" Demo.secret_hash true ],
                      None, Demo.alice_table)) by reflexivity.
  assert (Hdown : GetBackupCodes (mkFlaky Demo.alice_table [true]) "alice"
                  = ([], Some unreachable, mkFlaky Demo.alice_table [])) by reflexivity.
  split; (split; [assumption|]).
  - exact (proj1 (ValidateName_iff_unused_name "alice" "ab cd ef" _ _ _ _ Hfetch) eq_refl).
  - exact (proj2 (ValidateName_iff_unused_name "alice" "ab cd ef" _ _ _ _ Hdown)
             unreachable eq_refl).
Defined.

(** C9: [ValidateName] changes nothing in the store.  Its only dealing with
    the Storer, whichever it is, is the one fetch by [GetBackupCodes]; and on
    the store of the Storer contract the table of code records after the call
    is the table before it, whatever the call returns. *)
Theorem ValidateName_never_mutates :
  (forall (S : Type) (storer : Storer S) (userid name : string) (st : S),
      snd (ValidateName userid name st) = snd (GetBackupCodes st userid))
  /\ (forall (userid name : string) (st : MemStore),
         snd (ValidateName userid name st) = st).
Proof.
  split.
  - intros S storer userid name st. apply ValidateName_state.
  - intros userid name st. now rewrite ValidateName_state.
Qed.

(** ** Validating a code: errors and panics *)

Section ValidationErrors.

Variable FromString : string -> bytes * option error.
Variable CompareHashAndPassword : bytes -> bytes -> option error.
Context {S : Type} `{Storer S}.

(** C3: a code string of fewer than [recoveryNameLen] words makes
    [ValidateCode] panic: the slice expression [phrase[:recoveryNameLen]] is
    out of range.  This holds for every user, every store and every codec;
    stated for the empty string, for one word and for two words. *)
Theorem ValidateCode_short_input_panics (userid : string) (st : S) :
  ValidateCode FromString CompareHashAndPassword userid "" st
  = (Panic "slice bounds out of range", st)
  /\ ValidateCode FromString CompareHashAndPassword userid "phrase" st
     = (Panic "slice bounds out of range", st)
  /\ ValidateCode FromString CompareHashAndPassword userid "not real" st
     = (Panic "slice bounds out of range", st).
Proof.
  repeat split; apply ValidateCode_short; unfold words; cbn; lia.
Qed.

(** With at least [recoveryNameLen] words, [ValidateCode] returns. *)
Lemma ValidateCode_long_returns (userid codeString : string) (st : S) :
  (3 <= words codeString)%nat ->
  returns (fst (ValidateCode FromString CompareHashAndPassword userid codeString st)) = true.
Proof.
  intros Hlong. rewrite ValidateCode_long by assumption.
  destruct (lookup_verdict _ _ _ _) as [code|result]; [|reflexivity].
  destruct (UpdateBackupCode _ code) as [[e|] st2]; reflexivity.
Qed.

(** The decoder's error value is never looked at. *)
Lemma ValidateCode_ignores_decoding_error
  (FromString' : string -> bytes * option error) (userid codeString : string) (st : S) :
  (forall str, fst (FromString' str) = fst (FromString str)) ->
  ValidateCode FromString' CompareHashAndPassword userid codeString st
  = ValidateCode FromString CompareHashAndPassword userid codeString st.
Proof.
  intros Hsame. unfold ValidateCode. unfold_body.
  destruct (slice_to _ _) as [nameWords|]; [|reflexivity].
  destruct (slice_from _ _) as [keyWords|]; [|reflexivity].
  specialize (Hsame (Join keyWords " ")).
  destruct (FromString' _) as [key' derr'], (FromString _) as [key derr].
  cbn [fst] in Hsame. subst key'. reflexivity.
Qed.

(** C5, amended: on a code string of at least [recoveryNameLen] words whose
    secret phrase fails decoding, the decoding error is never returned.  The
    call goes on with the bytes the decoder gave back: a failing lookup
    returns false with the Storer's error, and a lookup that succeeds gives
    [(false, nil)] as long as the hash of the code found does not verify
    against those bytes.  The results do not depend on the decoder's error
    value. *)
Theorem ValidateCode_decoding_failure_absorbed
  (userid codeString : string) (st st1 : S) (c : option BackupCode) (err : option error) :
  (3 <= words codeString)%nat ->
  snd (FromString (code_secret codeString)) <> None ->
  GetBackupCodeByName st userid (code_name codeString) = (c, err, st1) ->
  (forall e, err = Some e ->
     ValidateCode FromString CompareHashAndPassword userid codeString st
     = (Ret (false, Some e), st1))
  /\ (err = None ->
      (forall code, c = Some code ->
         CompareHashAndPassword (list_byte_of_string (GetHashedSecret code))
           (fst (FromString (code_secret codeString))) <> None) ->
      ValidateCode FromString CompareHashAndPassword userid codeString st
      = (Ret (false, None), st1))
  /\ (forall FromString' : string -> bytes * option error,
        (forall str, fst (FromString' str) = fst (FromString str)) ->
        ValidateCode FromString' CompareHashAndPassword userid codeString st
        = ValidateCode FromString CompareHashAndPassword userid codeString st).
Proof.
  intros Hlong _ Hlookup. repeat split.
  - intros e ->. rewrite ValidateCode_long, Hlookup by assumption.
    cbn [fst snd lookup_verdict]. now destruct c.
  - intros -> Hverify. rewrite ValidateCode_long, Hlookup by assumption.
    cbn [fst snd lookup_verdict].
    destruct c as [code|]; [|reflexivity].
    destruct (negb _ || IsUsed code); [reflexivity|].
    specialize (Hverify code eq_refl).
    destruct (CompareHashAndPassword _ _); [reflexivity | now contradiction Hverify].
  - intros FromString' Hsame. now apply ValidateCode_ignores_decoding_error.
Qed.

(** A run that returns true went all the way through the update. *)
Lemma ValidateCode_true_inversion
  (userid codeString : string) (st st2 : S) (err : option error) :
  ValidateCode FromString CompareHashAndPassword userid codeString st
  = (Ret (true, err), st2) ->
  err = None
  /\ (3 <= words codeString)%nat
  /\ exists (code : BackupCode) (st1 : S),
       GetBackupCodeByName st userid (code_name codeString) = (Some code, None, st1)
       /\ GetName code = code_name codeString
       /\ IsUsed code = false
       /\ CompareHashAndPassword (list_byte_of_string (GetHashedSecret code))
            (fst (FromString (code_secret codeString))) = None
       /\ UpdateBackupCode st1 (SetUsed code) = (None, st2).
Proof.
  intros Hrun.
  destruct (Nat.lt_ge_cases (words codeString) 3) as [Hshort|Hlong].
  { rewrite ValidateCode_short in Hrun by assumption. discriminate. }
  rewrite ValidateCode_long in Hrun by assumption.
  destruct (GetBackupCodeByName st userid (code_name codeString)) as [[c lerr] st1].
  cbn [fst snd lookup_verdict] in Hrun.
  destruct lerr as [e|]; [destruct c; discriminate|].
  destruct c as [code|]; [|discriminate].
  destruct (GetName code =? code_name codeString)%string eqn:Hname;
    [|discriminate].
  destruct (IsUsed code) eqn:Hused; [discriminate|].
  cbn [negb orb] in Hrun.
  destruct (CompareHashAndPassword _ _) eqn:Hhash; [discriminate|].
  destruct (UpdateBackupCode st1 (SetUsed code)) as [[e|] st2'] eqn:Hupdate;
    [discriminate|].
  injection Hrun as <- <-.
  split; [reflexivity|]. split; [assumption|].
  exists code, st1. apply String.eqb_eq in Hname. now repeat split.
Qed.

(** C6, amended: when name, unused flag and hashed secret all match and the
    mark-used update of the Storer fails, [ValidateCode] returns false
    together with the Storer's error; and whenever [ValidateCode] returns
    true, its error is nil, the code looked up matched and was unused, and
    [UpdateBackupCode] was given the marked code and answered without error,
    the store returned being the one that update left. *)
Theorem ValidateCode_update_failure_propagated :
  (forall (userid codeString : string) (st st1 st2 : S) (code : BackupCode) (e : error),
      (3 <= words codeString)%nat ->
      GetBackupCodeByName st userid (code_name codeString) = (Some code, None, st1) ->
      GetName code = code_name codeString ->
      IsUsed code = false ->
      CompareHashAndPassword (list_byte_of_string (GetHashedSecret code))
        (fst (FromString (code_secret codeString))) = None ->
      UpdateBackupCode st1 (SetUsed code) = (Some e, st2) ->
      ValidateCode FromString CompareHashAndPassword userid codeString st
      = (Ret (false, Some e), st2))
  /\ (forall (userid codeString : string) (st st2 : S) (err : option error),
         ValidateCode FromString CompareHashAndPassword userid codeString st
         = (Ret (true, err), st2) ->
         err = None
         /\ exists (code : BackupCode) (st1 : S),
              GetBackupCodeByName st userid (code_name codeString) = (Some code, None, st1)
              /\ GetName code = code_name codeString
              /\ IsUsed code = false
              /\ CompareHashAndPassword (list_byte_of_string (GetHashedSecret code))
                   (fst (FromString (code_secret codeString))) = None
              /\ UpdateBackupCode st1 (SetUsed code) = (None, st2)).
Proof.
  split.
  - intros userid codeString st st1 st2 code e Hlong Hlookup Hname Hused Hhash Hupdate.
    rewrite ValidateCode_long, Hlookup by assumption.
    cbn [fst snd lookup_verdict].
    rewrite Hname, String.eqb_refl, Hused, Hhash. cbn [negb orb].
    now rewrite Hupdate.
  - intros userid codeString st st2 err Hrun.
    destruct (ValidateCode_true_inversion _ _ _ _ _ Hrun) as (Herr & _ & Hrest).
    now split.
Qed.

End ValidationErrors.

(** C5 as first stated fails when the store cannot be reached: the secret
    phrase ["zz"] does not decode, and the call returns the Storer's error
    instead of [(false, nil)]. *)
Lemma ValidateCode_decoding_failure_counterexample :
  (3 <= words "ab cd ef zz")%nat
  /\ snd (Demo.FromString (code_secret "ab cd ef zz")) <> None
  /\ fst (Demo.ValidateCode "alice" "ab cd ef zz" (mkFlaky Demo.alice_table [true]))
     = Ret (false, Some unreachable)
  /\ fst (Demo.ValidateCode "alice" "ab cd ef zz" (mkFlaky Demo.alice_table [true]))
     <> Ret (false, None).
Proof.
  split; [vm_compute; lia|].
  split; [vm_compute; discriminate|].
  split; [reflexivity | vm_compute; discriminate].
Qed.

Lemma ValidateCode_decoding_failure_absorbed_witness :
  (3 <= words "ab cd ef zz")%nat
  /\ snd (Demo.FromString (code_secret "ab cd ef zz")) <> None
  /\ GetBackupCodeByName Demo.alice_table "alice" (code_name "ab cd ef zz")
     = (Some (mkCode 0 "alice" "ab cd ef" Demo.secret_hash false), None, Demo.alice_table)
  /\ Demo.ValidateCode "alice" "ab cd ef zz" Demo.alice_table
     = (Ret (false, None), Demo.alice_table).
Proof.
  assert (Hlong : (3 <= words "ab cd ef zz")%nat) by (vm_compute; lia).
  assert (Hdecode : snd (Demo.FromString (code_secret "ab cd ef zz")) <> None)
    by (vm_compute; discriminate).
  assert (Hlookup : GetBackupCodeByName Demo.alice_table "alice" (code_name "ab cd ef zz")
                    = (Some (mkCode 0 "alice" "ab cd ef" Demo.secret_hash false), None,
                       Demo.alice_table)) by reflexivity.
  split; [exact Hlong | split; [exact Hdecode | split; [exact Hlookup|]]].
  refine (proj1 (proj2 (ValidateCode_decoding_failure_absorbed
                          Demo.FromString Demo.CompareHashAndPassword
                          "alice" "ab cd ef zz" Demo.alice_table _ _ _
                          Hlong Hdecode Hlookup)) eq_refl _).
  intros code Hcode. injection Hcode as <-. vm_compute. discriminate.
Defined.

(** C6 as first stated fails when the store drops out between the lookup
    and the update: everything matches, the update fails, and the call
    returns the Storer's error, not a nil one. *)
Lemma ValidateCode_update_failure_counterexample :
  GetBackupCodeByName (mkFlaky Demo.alice_table [false; true]) "alice"
    (code_name "ab cd ef ab ac")
  = (Some (mkCode 0 "alice" "ab cd ef" Demo.secret_hash false), None,
     mkFlaky Demo.alice_table [true])
  /\ Demo.CompareHashAndPassword (list_byte_of_string Demo.secret_hash)
       (fst (Demo.FromString (code_secret "ab cd ef ab ac"))) = None
  /\ UpdateBackupCode (mkFlaky Demo.alice_table [true])
       (SetUsed (mkCode 0 "alice" "ab cd ef" Demo.secret_hash false))
     = (Some unreachable, mkFlaky Demo.alice_table [])
  /\ Demo.ValidateCode "alice" "ab cd ef ab ac" (mkFlaky Demo.alice_table [false; true])
     = (Ret (false, Some unreachable), mkFlaky Demo.alice_table [])
  /\ fst (Demo.ValidateCode "alice" "ab cd ef ab ac" (mkFlaky Demo.alice_table [false; true]))
     <> Ret (false, None).
Proof.
  repeat split; vm_compute; discriminate.
Qed.

Lemma ValidateCode_update_failure_propagated_witness :
  ((3 <= words "ab cd ef ab ac")%nat
   /\ GetBackupCodeByName (mkFlaky Demo.alice_table [false; true]) "alice"
        (code_name "ab cd ef ab ac")
      = (Some (mkCode 0 "alice" "ab cd ef" Demo.secret_hash false), None,
         mkFlaky Demo.alice_table [true])
   /\ UpdateBackupCode (mkFlaky Demo.alice_table [true])
        (SetUsed (mkCode 0 "alice" "ab cd ef" Demo.secret_hash false))
      = (Some unreachable, mkFlaky Demo.alice_table [])
   /\ Demo.ValidateCode "alice" "ab cd ef ab ac" (mkFlaky Demo.alice_table [false; true])
      = (Ret (false, Some unreachable), mkFlaky Demo.alice_table []))
  /\ (Demo.ValidateCode "alice" "ab cd ef ab ac" Demo.alice_table
      = (Ret (true, None), set_index Demo.alice_table 0
                             (mark_used (mkRow "alice" "ab cd ef" Demo.secret_hash false)))
      /\ exists (code : BackupCode) (st1 : MemStore),
           GetBackupCodeByName Demo.alice_table "alice" (code_name "ab cd ef ab ac")
           = (Some code, None, st1)
           /\ GetName code = code_name "ab cd ef ab ac"
           /\ IsUsed code = false
           /\ Demo.CompareHashAndPassword (list_byte_of_string (GetHashedSecret code))
                (fst (Demo.FromString (code_secret "ab cd ef ab ac"))) = None
           /\ UpdateBackupCode st1 (SetUsed code)
              = (None, set_index Demo.alice_table 0
                         (mark_used (mkRow "alice" "ab cd ef" Demo.secret_hash false)))).
Proof.
  assert (Hlong : (3 <= words "ab cd ef ab ac")%nat) by (vm_compute; lia).
  assert (Hlookup : GetBackupCodeByName (mkFlaky Demo.alice_table [false; true]) "alice"
                      (code_name "ab cd ef ab ac")
                    = (Some (mkCode 0 "alice" "ab cd ef" Demo.secret_hash false), None,
                       mkFlaky Demo.alice_table [true])) by reflexivity.
  assert (Hupdate : UpdateBackupCode (mkFlaky Demo.alice_table [true])
                      (SetUsed (mkCode 0 "alice" "ab cd ef" Demo.secret_hash false))
                    = (Some unreachable, mkFlaky Demo.alice_table [])) by reflexivity.
  assert (Hrun : Demo.ValidateCode "alice" "ab cd ef ab ac" Demo.alice_table
                 = (Ret (true, None),
                    set_index Demo.alice_table 0
                      (mark_used (mkRow "alice" "ab cd ef" Demo.secret_hash false))))
    by reflexivity.
  split.
  - split; [exact Hlong | split; [exact Hlookup | split; [exact Hupdate|]]].
    exact (proj1 (ValidateCode_update_failure_propagated
                    Demo.FromString Demo.CompareHashAndPassword)
             "alice" "ab cd ef ab ac" _ _ _ _ _
             Hlong Hlookup eq_refl eq_refl eq_refl Hupdate).
  - split; [exact Hrun|].
    exact (proj2 (proj2 (ValidateCode_update_failure_propagated
                           Demo.FromString Demo.CompareHashAndPassword)
                    "alice" "ab cd ef ab ac" _ _ _ Hrun)).
Defined.

Example ValidateCode_not_a_real_phrase :
  Demo.ValidateCode "alice" "not a real phrase" Demo.alice_table
  = (Ret (false, None), Demo.alice_table).
Proof. reflexivity. Qed.

(** The bytes of a failed decoding are verified like any others: against a
    record that holds the hash of the empty byte string, an undecodable secret
    phrase is accepted. *)
Example ValidateCode_undecodable_secret_verified :
  snd (Demo.FromString (code_secret "ab cd ef zz")) <> None
  /\ Demo.ValidateCode "alice" "ab cd ef zz" Demo.empty_secret_table
     = (Ret (true, None),
        [ mkRow "alice" "ab cd ef" (string_of_list_byte (Demo.hash_of [])) true ]).
Proof. split; [vm_compute; discriminate | reflexivity]. Qed.

(** ** The store of the Storer contract *)

Lemma set_index_length {A} (l : list A) (i : nat) (v : A) :
  List.length (set_index l i v) = List.length l.
Proof.
  revert i. induction l as [|h t IH]; intros [|i]; cbn; auto.
Qed.

Lemma nth_error_set_index_same {A} (l : list A) (i : nat) (v : A) :
  (i < List.length l)%nat -> nth_error (set_index l i v) i = Some v.
Proof.
  revert i. induction l as [|h t IH]; intros [|i] Hlt; cbn in *; try lia.
  - reflexivity.
  - apply IH. lia.
Qed.

Lemma nth_error_set_index_other {A} (l : list A) (i j : nat) (v : A) :
  i <> j -> nth_error (set_index l i v) j = nth_error l j.
Proof.
  revert i j. induction l as [|h t IH]; intros [|i] [|j] Hne; cbn; try reflexivity.
  - contradiction.
  - apply IH. congruence.
Qed.

Lemma named_mark_used (userid name : string) (i : nat) (r : row) :
  named userid name (to_code i (mark_used r)) = named userid name (to_code i r).
Proof. reflexivity. Qed.

Lemma find_codes_from_id (p : BackupCode -> bool) (st : MemStore) (k : nat) (c : BackupCode) :
  find p (codes_from k st) = Some c -> (k <= codeID c)%nat.
Proof.
  revert k. induction st as [|r st IH]; intros k Hfind; cbn in Hfind.
  - discriminate.
  - destruct (p (to_code k r)).
    + injection Hfind as <-. cbn. lia.
    + apply IH in Hfind. lia.
Qed.

(** The code a lookup finds is the copy of the row at the position its
    identifier names. *)
Lemma find_codes_from_row (p : BackupCode -> bool) (st : MemStore) (k : nat) (c : BackupCode) :
  find p (codes_from k st) = Some c ->
  exists (i : nat) (r : row),
    c = to_code (k + i) r /\ nth_error st i = Some r.
Proof.
  revert k. induction st as [|r st IH]; intros k Hfind; cbn in Hfind.
  - discriminate.
  - destruct (p (to_code k r)).
    + injection Hfind as <-. exists 0%nat, r. now rewrite Nat.add_0_r.
    + apply IH in Hfind as (i & r' & -> & Hnth).
      exists (Datatypes.S i), r'. split; [f_equal; lia | exact Hnth].
Qed.

(** Marking the row a lookup found leaves it the row that lookup finds. *)
Lemma find_named_after_mark (userid name : string) (st : MemStore) (k i : nat) (r : row) :
  find (named userid name) (codes_from k st) = Some (to_code (k + i) r) ->
  nth_error st i = Some r ->
  find (named userid name) (codes_from k (set_index st i (mark_used r)))
  = Some (to_code (k + i) (mark_used r)).
Proof.
  revert k i. induction st as [|r0 st IH]; intros k i Hfind Hnth.
  - destruct i; discriminate.
  - cbn in Hfind. destruct i as [|i].
    + cbn in Hnth. injection Hnth as ->. cbn [set_index codes_from find].
      rewrite named_mark_used.
      destruct (named userid name (to_code k r)) eqn:Hnamed.
      * now rewrite Nat.add_0_r.
      * apply find_codes_from_id in Hfind. cbn in Hfind. lia.
    + cbn [set_index codes_from find]. cbn in Hnth.
      destruct (named userid name (to_code k r0)) eqn:Hnamed.
      * injection Hfind as Hid _. lia.
      * replace (k + Datatypes.S i)%nat with (Datatypes.S k + i)%nat in * by lia.
        now apply IH.
Qed.

Lemma used_at_set_index_mark (st : MemStore) (i j : nat) (r : row) :
  used_at st j = true -> used_at (set_index st i (mark_used r)) j = true.
Proof.
  unfold used_at. intros Hused.
  destruct (Nat.eq_dec i j) as [->|Hne].
  - destruct (nth_error st j) eqn:Hnth; [|discriminate].
    rewrite nth_error_set_index_same; [reflexivity|].
    apply nth_error_Some. congruence.
  - now rewrite nth_error_set_index_other.
Qed.

(** The conditional write never clears a used flag. *)
Lemma mem_UpdateBackupCode_monotone (st : MemStore) (c : BackupCode) (j : nat) :
  used_at st j = true -> used_at (snd (mem_UpdateBackupCode st c)) j = true.
Proof.
  intros Hused. unfold mem_UpdateBackupCode.
  destruct (nth_error st (codeID c)) as [r|]; [|exact Hused].
  destruct (rowUsed r); [exact Hused|].
  destruct (codeUsed c); [|exact Hused].
  now apply used_at_set_index_mark.
Qed.

Section MemValidation.

Variable FromString : string -> bytes * option error.
Variable CompareHashAndPassword : bytes -> bytes -> option error.

(** A validation that returns true found an unused row by user and name and
    marked it. *)
Lemma ValidateCode_true_marks (userid codeString : string) (st st' : MemStore) :
  fst (ValidateCode FromString CompareHashAndPassword userid codeString st) = Ret (true, None) ->
  st' = snd (ValidateCode FromString CompareHashAndPassword userid codeString st) ->
  exists (i : nat) (r : row),
    (3 <= words codeString)%nat
    /\ find (named userid (code_name codeString)) (codes_from 0 st) = Some (to_code i r)
    /\ nth_error st i = Some r
    /\ rowUsed r = false
    /\ lookup_verdict FromString CompareHashAndPassword codeString
         (Some (to_code i r), None) = inl (SetUsed (to_code i r))
    /\ st' = set_index st i (mark_used r).
Proof.
  intros Hres Hst.
  destruct (ValidateCode FromString CompareHashAndPassword userid codeString st)
    as [res st2] eqn:Hrun.
  cbn [fst snd] in Hres, Hst. subst res st2.
  destruct (ValidateCode_true_inversion FromString CompareHashAndPassword _ _ _ _ _ Hrun)
    as (_ & Hlong & code & st1 & Hlookup & Hname & Hused & Hhash & Hupdate).
  cbn [GetBackupCodeByName MemStorer] in Hlookup.
  unfold mem_GetBackupCodeByName in Hlookup.
  injection Hlookup as Hfind <-.
  destruct (find_codes_from_row _ _ _ _ Hfind) as (i & r & -> & Hnth).
  cbn [Nat.add] in *.
  exists i, r. repeat split; try assumption.
  - cbn [lookup_verdict]. rewrite Hname, String.eqb_refl, Hused, Hhash. reflexivity.
  - cbn [UpdateBackupCode MemStorer] in Hupdate.
    unfold mem_UpdateBackupCode in Hupdate.
    cbn [SetUsed codeID codeUsed to_code] in Hupdate.
    rewrite Hnth in Hupdate.
    cbn [IsUsed to_code codeUsed] in Hused. rewrite Hused in Hupdate.
    now injection Hupdate as <-.
Qed.

(** Once the row is marked, the same code string is a non-match, and the
    store stays as it is. *)
Lemma ValidateCode_after_mark (userid codeString : string) (st : MemStore) (i : nat) (r : row) :
  (3 <= words codeString)%nat ->
  find (named userid (code_name codeString)) (codes_from 0 st) = Some (to_code i r) ->
  nth_error st i = Some r ->
  ValidateCode FromString CompareHashAndPassword userid codeString
    (set_index st i (mark_used r))
  = (Ret (false, None), set_index st i (mark_used r)).
Proof.
  intros Hlong Hfind Hnth.
  rewrite ValidateCode_long by assumption.
  cbn [GetBackupCodeByName MemStorer]. unfold mem_GetBackupCodeByName. cbn [fst snd].
  rewrite (find_named_after_mark userid (code_name codeString) st 0 i r Hfind Hnth).
  cbn [lookup_verdict Nat.add]. cbn [IsUsed to_code mark_used codeUsed rowUsed].
  now rewrite orb_true_r.
Qed.

Lemma validations_after_mark
  (n : nat) (userid codeString : string) (st : MemStore) (i : nat) (r : row) :
  (3 <= words codeString)%nat ->
  find (named userid (code_name codeString)) (codes_from 0 st) = Some (to_code i r) ->
  nth_error st i = Some r ->
  validations FromString CompareHashAndPassword n userid codeString
    (set_index st i (mark_used r))
  = (repeat (Ret (false, None)) n, set_index st i (mark_used r)).
Proof.
  intros Hlong Hfind Hnth. induction n as [|n IH]; cbn [validations repeat].
  - reflexivity.
  - rewrite ValidateCode_after_mark by assumption. now rewrite IH.
Qed.

(** [ValidateCode] never clears a used flag of the table. *)
Lemma ValidateCode_monotone (userid codeString : string) (st : MemStore) (j : nat) :
  used_at st j = true ->
  used_at (snd (ValidateCode FromString CompareHashAndPassword userid codeString st)) j = true.
Proof.
  intros Hused.
  destruct (Nat.lt_ge_cases (words codeString) 3) as [Hshort|Hlong].
  { now rewrite ValidateCode_short by assumption. }
  rewrite ValidateCode_long by assumption.
  cbn [GetBackupCodeByName MemStorer]. unfold mem_GetBackupCodeByName. cbn [fst snd].
  destruct (lookup_verdict _ _ _ _) as [code|result]; [|exact Hused].
  pose proof (mem_UpdateBackupCode_monotone st code j Hused) as Hmono.
  cbn [UpdateBackupCode MemStorer].
  destruct (mem_UpdateBackupCode st code) as [[e|] st2]; exact Hmono.
Qed.

End MemValidation.

(** ** Single use *)

Section Monotone.

Context {R : Type}.
Variable rand_source : R -> nat -> bytes * option error * R.
Variable ToPhrase : bytes -> list string * option error.
Variable FromString : string -> bytes * option error.
Variable GenerateFromPassword : R -> bytes -> Z -> bytes * option error * R.
Variable CompareHashAndPassword : bytes -> bytes -> option error.

(** No operation of the controller clears a used flag of the table. *)
Lemma perform_monotone (op : operation) (w : R * MemStore) (j : nat) :
  used_at (snd w) j = true ->
  used_at (snd (perform rand_source ToPhrase FromString GenerateFromPassword
                  CompareHashAndPassword op w)) j = true.
Proof.
  intros Hused. destruct w as [r st]. cbn [snd] in Hused.
  destruct op as [userid|userid|userid name|userid codeString]; cbn [perform fst snd].
  - destruct (CreateCodes_stops_at_entropy rand_source ToPhrase GenerateFromPassword
                userid r st) as (e & r' & ->).
    exact Hused.
  - now rewrite IsSupported_state.
  - now rewrite ValidateName_state.
  - now apply ValidateCode_monotone.
Qed.

Lemma perform_all_monotone (ops : list operation) (w : R * MemStore) (j : nat) :
  used_at (snd w) j = true ->
  used_at (snd (fold_left
                  (fun w op => perform rand_source ToPhrase FromString GenerateFromPassword
                                 CompareHashAndPassword op w) ops w)) j = true.
Proof.
  revert w. induction ops as [|op ops IH]; intros w Hused; cbn [fold_left].
  - exact Hused.
  - apply IH. now apply perform_monotone.
Qed.

End Monotone.

(** C1: on the store of the Storer contract, a [ValidateCode] that returns
    true has found the code by user and name, unused, and leaves its record
    marked used; every later [ValidateCode] of the same code string on the
    store it leaves, however many there are, returns [(false, nil)] and
    changes nothing.  And a used flag that is set is never cleared again,
    whatever operations of the controller ([CreateCodes], [IsSupported],
    [ValidateName], [ValidateCode]) run afterwards, in whatever order. *)
Theorem ValidateCode_exactly_once :
  (forall (FromString : string -> bytes * option error)
          (CompareHashAndPassword : bytes -> bytes -> option error)
          (userid codeString : string) (st st' : MemStore),
      ValidateCode FromString CompareHashAndPassword userid codeString st
      = (Ret (true, None), st') ->
      exists (i : nat) (r : row),
        GetBackupCodeByName st userid (code_name codeString) = (Some (to_code i r), None, st)
        /\ nth_error st i = Some r
        /\ rowUsed r = false
        /\ st' = set_index st i (mark_used r)
        /\ used_at st' i = true
        /\ forall n : nat,
             validations FromString CompareHashAndPassword n userid codeString st'
             = (repeat (Ret (false, None)) n, st'))
  /\ (forall (R : Type) (rand_source : R -> nat -> bytes * option error * R)
             (ToPhrase : bytes -> list string * option error)
             (FromString : string -> bytes * option error)
             (GenerateFromPassword : R -> bytes -> Z -> bytes * option error * R)
             (CompareHashAndPassword : bytes -> bytes -> option error)
             (ops : list operation) (w : R * MemStore) (i : nat),
         used_at (snd w) i = true ->
         used_at (snd (fold_left
                         (fun w op => perform rand_source ToPhrase FromString
                                        GenerateFromPassword CompareHashAndPassword op w)
                         ops w)) i = true).
Proof.
  split.
  - intros FromString CompareHashAndPassword userid codeString st st' Hrun.
    destruct (ValidateCode_true_marks FromString CompareHashAndPassword
                userid codeString st st')
      as (i & r & Hlong & Hfind & Hnth & Hunused & _ & Hst');
      [now rewrite Hrun | now rewrite Hrun |].
    exists i, r. repeat split; try assumption.
    + cbn [GetBackupCodeByName MemStorer]. unfold mem_GetBackupCodeByName.
      now rewrite Hfind.
    + subst st'. unfold used_at.
      rewrite nth_error_set_index_same; [reflexivity|].
      apply nth_error_Some. congruence.
    + intros n. subst st'. now apply validations_after_mark.
  - intros R rand_source ToPhrase FromString GenerateFromPassword CompareHashAndPassword
      ops w i. apply perform_all_monotone.
Qed.

Lemma ValidateCode_exactly_once_witness :
  Demo.ValidateCode "alice" "ab cd ef ab ac" Demo.alice_table
  = (Ret (true, None),
     [ mkRow "alice" "ab cd ef" Demo.secret_hash true;
       mkRow "alice" "gh ij kl" Demo.secret_hash true;
       mkRow "bob" "ab cd ef" Demo.secret_hash false ])
  /\ exists (i : nat) (r : row),
       GetBackupCodeByName Demo.alice_table "alice" (code_name "ab cd ef ab ac")
       = (Some (to_code i r), None, Demo.alice_table)
       /\ nth_error Demo.alice_table i = Some r
       /\ rowUsed r = false
       /\ [ mkRow "alice" "ab cd ef" Demo.secret_hash true;
            mkRow "alice" "gh ij kl" Demo.secret_hash true;
            mkRow "bob" "ab cd ef" Demo.secret_hash false ]
          = set_index Demo.alice_table i (mark_used r)
       /\ used_at [ mkRow "alice" "ab cd ef" Demo.secret_hash true;
                    mkRow "alice" "gh ij kl" Demo.secret_hash true;
                    mkRow "bob" "ab cd ef" Demo.secret_hash false ] i = true
       /\ forall n : nat,
            Demo.validations n "alice" "ab cd ef ab ac"
              [ mkRow "alice" "ab cd ef" Demo.secret_hash true;
                mkRow "alice" "gh ij kl" Demo.secret_hash true;
                mkRow "bob" "ab cd ef" Demo.secret_hash false ]
            = (repeat (Ret (false, None)) n,
               [ mkRow "alice" "ab cd ef" Demo.secret_hash true;
                 mkRow "alice" "gh ij kl" Demo.secret_hash true;
                 mkRow "bob" "ab cd ef" Demo.secret_hash false ]).
Proof.
  assert (Hrun : Demo.ValidateCode "alice" "ab cd ef ab ac" Demo.alice_table
                 = (Ret (true, None),
                    [ mkRow "alice" "ab cd ef" Demo.secret_hash true;
                      mkRow "alice" "gh ij kl" Demo.secret_hash true;
                      mkRow "bob" "ab cd ef" Demo.secret_hash false ])) by reflexivity.
  split; [exact Hrun|].
  exact (proj1 ValidateCode_exactly_once Demo.FromString Demo.CompareHashAndPassword
           "alice" "ab cd ef ab ac" Demo.alice_table _ Hrun).
Defined.

Example validate_twice :
  Demo.validations 3 "alice" "ab cd ef ab ac" Demo.alice_table
  = ([Ret (true, None); Ret (false, None); Ret (false, None)],
     [ mkRow "alice" "ab cd ef" Demo.secret_hash true;
       mkRow "alice" "gh ij kl" Demo.secret_hash true;
       mkRow "bob" "ab cd ef" Demo.secret_hash false ]).
Proof. reflexivity. Qed.

Example used_flags_after_operations :
  snd (fold_left (fun w op => Demo.perform op w)
         [ OpValidateCode "alice" "ab cd ef ab ac"; OpCreateCodes "alice";
           OpValidateName "alice" "ab cd ef"; OpIsSupported "alice";
           OpValidateCode "alice" "ab cd ef ab ac" ]
         (repeat Byte.x07 40, Demo.alice_table))
  = [ mkRow "alice" "ab cd ef" Demo.secret_hash true;
      mkRow "alice" "gh ij kl" Demo.secret_hash true;
      mkRow "bob" "ab cd ef" Demo.secret_hash false ].
Proof. reflexivity. Qed.

(** ** Racing validations *)

Lemma count_cons {A} (p : A -> bool) (x : A) (l : list A) :
  count p (x :: l) = ((if p x then 1 else 0) + count p l)%nat.
Proof. unfold count. cbn [filter]. now destruct (p x). Qed.

Lemma count_set_index {A} (p : A -> bool) (l : list A) (i : nat) (old new : A) :
  nth_error l i = Some old ->
  (count p (set_index l i new) + (if p old then 1 else 0)
   = count p l + (if p new then 1 else 0))%nat.
Proof.
  revert i. induction l as [|h t IH]; intros [|i] Hnth; cbn in Hnth; try discriminate.
  - injection Hnth as ->. cbn [set_index]. rewrite !count_cons. lia.
  - cbn [set_index]. rewrite !count_cons. specialize (IH i Hnth). lia.
Qed.

Lemma Forall_set_index {A} (P : A -> Prop) (l : list A) (i : nat) (v : A) :
  Forall P l -> P v -> Forall P (set_index l i v).
Proof.
  intros Hall Hv. revert i. induction Hall as [|h t Hh Ht IH]; intros [|i]; cbn [set_index];
    constructor; auto.
Qed.

Lemma count_none {A} (p : A -> bool) (l : list A) :
  Forall (fun x => p x = false) l -> count p l = 0%nat.
Proof.
  induction 1 as [|h t Hh Ht IH]; [reflexivity|].
  rewrite count_cons, Hh, IH. reflexivity.
Qed.

(** Every thread finishes within two steps of its own. *)
Lemma step_thread_twice_finished
  (FromString : string -> bytes * option error)
  (CompareHashAndPassword : bytes -> bytes -> option error)
  {S : Type} `{Storer S} (t : thread) (st st2 : S) :
  finished (fst (step_thread FromString CompareHashAndPassword
                   (fst (step_thread FromString CompareHashAndPassword t st)) st2)) = true.
Proof.
  destruct t as [userid codeString|code|result]; cbn [step_thread].
  - destruct (ValidateCode_lookup _ _ userid codeString st) as [[[code|result]|msg] st1];
      cbn [fst step_thread]; try reflexivity.
    now destruct (run (ValidateCode_update code) st2).
  - destruct (run (ValidateCode_update code) st) as [result st1]. reflexivity.
  - reflexivity.
Qed.

(** A lone thread, stepped twice, is the sequential call. *)
Lemma step_thread_twice_sequential
  (FromString : string -> bytes * option error)
  (CompareHashAndPassword : bytes -> bytes -> option error)
  {S : Type} `{Storer S} (userid codeString : string) (st : S) :
  run_schedule FromString CompareHashAndPassword [0; 0]%nat [Called userid codeString] st
  = ([Finished (fst (ValidateCode FromString CompareHashAndPassword userid codeString st))],
     snd (ValidateCode FromString CompareHashAndPassword userid codeString st)).
Proof.
  rewrite ValidateCode_phases. cbn [run_schedule nth_error step_thread]. unfold run, bind.
  destruct (ValidateCode_lookup _ _ userid codeString st) as [[[code|result]|msg] st1];
    cbn [set_index nth_error step_thread fst snd]; try reflexivity.
  unfold run.
  destruct (ValidateCode_update code st1) as [[[result|result]|msg] st2]; reflexivity.
Qed.

Section Schedules.

Variable FromString : string -> bytes * option error.
Variable CompareHashAndPassword : bytes -> bytes -> option error.
Context {S : Type} `{Storer S}.

Lemma run_schedule_length (schedule : list nat) (ts : list thread) (st : S) :
  List.length (fst (run_schedule FromString CompareHashAndPassword schedule ts st))
  = List.length ts.
Proof.
  revert ts st. induction schedule as [|i later IH]; intros ts st; cbn [run_schedule].
  - reflexivity.
  - destruct (nth_error ts i) as [t|]; [|apply IH].
    destruct (step_thread FromString CompareHashAndPassword t st) as [t' st'].
    rewrite IH. apply set_index_length.
Qed.

(** A step takes a thread that has not finished one Storer call further. *)
Lemma rank_step (t : thread) (st : S) :
  (Nat.min 2 (Datatypes.S (rank t))
   <= rank (fst (step_thread FromString CompareHashAndPassword t st)))%nat.
Proof.
  destruct t as [userid codeString|code|result]; cbn [step_thread rank].
  - destruct (ValidateCode_lookup _ _ userid codeString st) as [[[code|result]|msg] st1];
      cbn [fst rank]; lia.
  - destruct (run (ValidateCode_update code) st) as [result st1]. cbn [fst rank]. lia.
  - cbn [fst rank]. lia.
Qed.

Lemma run_schedule_rank (schedule : list nat) (ts : list thread) (st : S) (i : nat) (t : thread) :
  nth_error ts i = Some t ->
  exists t' : thread,
    nth_error (fst (run_schedule FromString CompareHashAndPassword schedule ts st)) i = Some t'
    /\ (Nat.min 2 (rank t + count_occ Nat.eq_dec schedule i) <= rank t')%nat.
Proof.
  revert ts st t. induction schedule as [|j later IH]; intros ts st t Hnth;
    cbn [run_schedule count_occ].
  - exists t. split; [assumption | lia].
  - destruct (nth_error ts j) as [tj|] eqn:Hj.
    + pose proof (rank_step tj st) as Hrank.
      destruct (step_thread FromString CompareHashAndPassword tj st) as [tj' st'].
      cbn [fst] in Hrank.
      destruct (Nat.eq_dec j i) as [->|Hne].
      * assert (tj = t) by congruence. subst tj.
        destruct (IH (set_index ts i tj') st' tj') as (t' & Hnth' & Hle).
        { apply nth_error_set_index_same. apply nth_error_Some. congruence. }
        exists t'. split; [assumption | lia].
      * destruct (IH (set_index ts j tj') st' t) as (t' & Hnth' & Hle).
        { now rewrite nth_error_set_index_other. }
        exists t'. split; [assumption | lia].
    + destruct (Nat.eq_dec j i) as [->|Hne]; [congruence|].
      now apply IH.
Qed.

(** A schedule that gives every thread two steps finishes them all. *)
Lemma fair_schedule_finishes
  (schedule : list nat) (userid codeString : string) (n : nat) (st : S) :
  (forall i, (i < n)%nat -> (2 <= count_occ Nat.eq_dec schedule i)%nat) ->
  forallb finished
    (fst (run_schedule FromString CompareHashAndPassword schedule
            (repeat (Called userid codeString) n) st)) = true.
Proof.
  intros Hfair. apply forallb_forall. intros t' Hin.
  apply In_nth_error in Hin as [i Hi].
  assert (Hlt : (i < n)%nat).
  { pose proof (run_schedule_length schedule (repeat (Called userid codeString) n) st) as Hlen.
    rewrite repeat_length in Hlen. rewrite <- Hlen. apply nth_error_Some. congruence. }
  destruct (run_schedule_rank schedule (repeat (Called userid codeString) n) st i
              (Called userid codeString)) as (t'' & Hnth & Hle).
  { rewrite nth_error_repeat by assumption. reflexivity. }
  rewrite Hi in Hnth. injection Hnth as <-.
  specialize (Hfair i Hlt). cbn [rank] in Hle.
  destruct t'; cbn [rank] in Hle; [lia | lia | reflexivity].
Qed.

End Schedules.

Section Race.

Variable FromString : string -> bytes * option error.
Variable CompareHashAndPassword : bytes -> bytes -> option error.
Variables (userid codeString : string).

(** The table before and after the code is consumed; [code0] is the marked
    copy a thread holds between its two Storer calls. *)
Variables (st0 : MemStore) (i0 : nat) (r0 : row).
Hypothesis Hlong : (3 <= words codeString)%nat.
Hypothesis Hfind :
  find (named userid (code_name codeString)) (codes_from 0 st0) = Some (to_code i0 r0).
Hypothesis Hnth : nth_error st0 i0 = Some r0.
Hypothesis Hunused : rowUsed r0 = false.
Hypothesis Hverdict :
  lookup_verdict FromString CompareHashAndPassword codeString (Some (to_code i0 r0), None)
  = inl (SetUsed (to_code i0 r0)).

Local Abbreviation code0 := (SetUsed (to_code i0 r0)).
Local Abbreviation st1 := (set_index st0 i0 (mark_used r0)).
Local Abbreviation waiting := (waiting userid codeString code0).
Local Abbreviation settled := (settled userid codeString code0).
Local Abbreviation race_invariant := (race_invariant userid codeString code0 st0 st1).

Lemma step_called_before :
  step_thread FromString CompareHashAndPassword (Called userid codeString) st0
  = (Matched code0, st0).
Proof.
  cbn [step_thread]. rewrite ValidateCode_lookup_long by assumption.
  cbn [GetBackupCodeByName MemStorer]. unfold mem_GetBackupCodeByName. cbn [fst snd].
  now rewrite Hfind, Hverdict.
Qed.

Lemma step_called_after :
  step_thread (S := MemStore) FromString CompareHashAndPassword
    (Called userid codeString) st1
  = (Finished (Ret (false, None)), st1).
Proof.
  cbn [step_thread]. rewrite ValidateCode_lookup_long by assumption.
  cbn [GetBackupCodeByName MemStorer]. unfold mem_GetBackupCodeByName. cbn [fst snd].
  rewrite (find_named_after_mark userid (code_name codeString) st0 0 i0 r0 Hfind Hnth).
  cbn [lookup_verdict Nat.add]. cbn [IsUsed to_code mark_used codeUsed rowUsed].
  now rewrite orb_true_r.
Qed.

Lemma step_matched_before :
  step_thread FromString CompareHashAndPassword (Matched code0) st0
  = (Finished (Ret (true, None)), st1).
Proof.
  cbn [step_thread]. unfold ValidateCode_update. unfold_body.
  cbn [UpdateBackupCode MemStorer]. unfold mem_UpdateBackupCode.
  cbn [SetUsed codeID codeUsed to_code]. now rewrite Hnth, Hunused.
Qed.

Lemma step_matched_after :
  step_thread (S := MemStore) FromString CompareHashAndPassword (Matched code0) st1
  = (Finished (Ret (false, Some "code already used")), st1).
Proof.
  cbn [step_thread]. unfold ValidateCode_update. unfold_body.
  cbn [UpdateBackupCode MemStorer]. unfold mem_UpdateBackupCode.
  cbn [SetUsed codeID codeUsed to_code].
  rewrite nth_error_set_index_same by (apply nth_error_Some; congruence).
  reflexivity.
Qed.

Lemma waiting_not_true (t : thread) : waiting t -> returned_true t = false.
Proof. intros [->| ->]; reflexivity. Qed.

Lemma race_step (ts : list thread) (st : MemStore) (i : nat) (t : thread) :
  race_invariant ts st ->
  nth_error ts i = Some t ->
  race_invariant
    (set_index ts i (fst (step_thread FromString CompareHashAndPassword t st)))
    (snd (step_thread FromString CompareHashAndPassword t st)).
Proof.
  intros [[-> Hall]|(-> & Hall & Hone)] Hnth_t.
  - assert (Ht : waiting t).
    { eapply Forall_forall; [exact Hall|]. eapply nth_error_In; eassumption. }
    destruct Ht as [->| ->].
    + rewrite step_called_before. cbn [fst snd]. left. split; [reflexivity|].
      apply Forall_set_index; [assumption | now right].
    + rewrite step_matched_before. cbn [fst snd]. right. split; [reflexivity|]. split.
      * apply Forall_set_index; [|right; now left].
        eapply Forall_impl; [|exact Hall]. intros t Ht. now left.
      * pose proof (count_set_index returned_true ts i (Matched code0)
                      (Finished (Ret (true, None))) Hnth_t) as Hcount.
        cbn [returned_true] in Hcount.
        rewrite (count_none returned_true ts) in Hcount
          by (eapply Forall_impl; [|exact Hall]; apply waiting_not_true).
        lia.
  - assert (Ht : settled t).
    { eapply Forall_forall; [exact Hall|]. eapply nth_error_In; eassumption. }
    right.
    destruct Ht as [[->| ->]|[->|[->| ->]]].
    + rewrite step_called_after. cbn [fst snd]. split; [reflexivity|]. split.
      * apply Forall_set_index; [assumption|]. right; right; now left.
      * pose proof (count_set_index returned_true ts i (Called userid codeString)
                      (Finished (Ret (false, None))) Hnth_t) as Hcount.
        cbn [returned_true] in Hcount. lia.
    + rewrite step_matched_after. cbn [fst snd]. split; [reflexivity|]. split.
      * apply Forall_set_index; [assumption|]. right; right; now right.
      * pose proof (count_set_index returned_true ts i (Matched code0)
                      (Finished (Ret (false, Some "code already used"))) Hnth_t) as Hcount.
        cbn [returned_true] in Hcount. lia.
    + cbn [step_thread fst snd]. split; [reflexivity|]. split.
      * apply Forall_set_index; [assumption|]. right; now left.
      * pose proof (count_set_index returned_true ts i (Finished (Ret (true, None)))
                      (Finished (Ret (true, None))) Hnth_t) as Hcount.
        lia.
    + cbn [step_thread fst snd]. split; [reflexivity|]. split.
      * apply Forall_set_index; [assumption|]. right; right; now left.
      * pose proof (count_set_index returned_true ts i (Finished (Ret (false, None)))
                      (Finished (Ret (false, None))) Hnth_t) as Hcount.
        lia.
    + cbn [step_thread fst snd]. split; [reflexivity|]. split.
      * apply Forall_set_index; [assumption|]. right; right; now right.
      * pose proof (count_set_index returned_true ts i
                      (Finished (Ret (false, Some "code already used")))
                      (Finished (Ret (false, Some "code already used"))) Hnth_t) as Hcount.
        lia.
Qed.

Lemma race_schedule (schedule : list nat) (ts : list thread) (st : MemStore) :
  race_invariant ts st ->
  race_invariant
    (fst (run_schedule FromString CompareHashAndPassword schedule ts st))
    (snd (run_schedule FromString CompareHashAndPassword schedule ts st)).
Proof.
  revert ts st. induction schedule as [|i later IH]; intros ts st Hinv; cbn [run_schedule].
  - exact Hinv.
  - destruct (nth_error ts i) as [t|] eqn:Hnth_t; [|now apply IH].
    pose proof (race_step ts st i t Hinv Hnth_t) as Hstep.
    destruct (step_thread FromString CompareHashAndPassword t st) as [t' st'].
    now apply IH.
Qed.

Lemma settled_finished_split (ts : list thread) :
  Forall settled ts ->
  forallb finished ts = true ->
  (count returned_true ts + count returned_false ts = List.length ts)%nat.
Proof.
  induction 1 as [|t ts Ht Hts IH]; cbn [forallb List.length]; intros Hfin.
  - reflexivity.
  - apply andb_true_iff in Hfin as [Hf Hrest]. rewrite !count_cons, <- (IH Hrest).
    destruct Ht as [[->| ->]|[->|[->| ->]]]; cbn in Hf |- *; try discriminate; lia.
Qed.

Lemma race_outcome (n : nat) (schedule : list nat) :
  (1 <= n)%nat ->
  forallb finished
    (fst (run_schedule FromString CompareHashAndPassword schedule
            (repeat (Called userid codeString) n) st0)) = true ->
  count returned_true
    (fst (run_schedule FromString CompareHashAndPassword schedule
            (repeat (Called userid codeString) n) st0)) = 1%nat
  /\ count returned_false
       (fst (run_schedule FromString CompareHashAndPassword schedule
               (repeat (Called userid codeString) n) st0)) = (n - 1)%nat
  /\ snd (run_schedule FromString CompareHashAndPassword schedule
            (repeat (Called userid codeString) n) st0) = st1.
Proof.
  intros Hn Hfin.
  assert (Hinit : race_invariant (repeat (Called userid codeString) n) st0).
  { left. split; [reflexivity|]. apply Forall_forall. intros t Hin.
    apply repeat_spec in Hin. now left. }
  pose proof (race_schedule schedule _ _ Hinit) as Hinv.
  pose proof (run_schedule_length FromString CompareHashAndPassword schedule
                (repeat (Called userid codeString) n) st0) as Hlen.
  rewrite repeat_length in Hlen.
  destruct (run_schedule FromString CompareHashAndPassword schedule
              (repeat (Called userid codeString) n) st0) as [ts st].
  cbn [fst snd] in *.
  destruct Hinv as [[-> Hall]|(-> & Hall & Hone)].
  - exfalso. destruct ts as [|t ts]; [cbn in Hlen; lia|].
    cbn [forallb] in Hfin. apply andb_true_iff in Hfin as [Hf _].
    inversion Hall as [|? ? Ht _]; subst.
    destruct Ht as [->| ->]; discriminate.
  - pose proof (settled_finished_split ts Hall Hfin) as Hsplit.
    repeat split; lia.
Qed.

End Race.

(** C10: on the store of the Storer contract, whose mark-used update is one
    atomic conditional write, [n] concurrent validations of the code string
    of an unused code (one that a lone [ValidateCode] would accept) give
    exactly one true and [n - 1] false results, whatever the order in which
    the threads reach the Storer, and the store they leave is the one a lone
    validation leaves; every schedule that lets each thread take two steps
    brings all of them to their result. *)
Theorem concurrent_validations_one_winner
  (FromString : string -> bytes * option error)
  (CompareHashAndPassword : bytes -> bytes -> option error)
  (userid codeString : string) (st : MemStore) (n : nat) (schedule : list nat) :
  fst (ValidateCode FromString CompareHashAndPassword userid codeString st)
  = Ret (true, None) ->
  (1 <= n)%nat ->
  (forallb finished
     (fst (run_schedule FromString CompareHashAndPassword schedule
             (repeat (Called userid codeString) n) st)) = true ->
   count returned_true
     (fst (run_schedule FromString CompareHashAndPassword schedule
             (repeat (Called userid codeString) n) st)) = 1%nat
   /\ count returned_false
        (fst (run_schedule FromString CompareHashAndPassword schedule
                (repeat (Called userid codeString) n) st)) = (n - 1)%nat
   /\ snd (run_schedule FromString CompareHashAndPassword schedule
             (repeat (Called userid codeString) n) st)
      = snd (ValidateCode FromString CompareHashAndPassword userid codeString st))
  /\ ((forall i, (i < n)%nat -> (2 <= count_occ Nat.eq_dec schedule i)%nat) ->
      forallb finished
        (fst (run_schedule FromString CompareHashAndPassword schedule
                (repeat (Called userid codeString) n) st)) = true).
Proof.
  intros Hlone Hn. split.
  - intros Hfin.
    destruct (ValidateCode_true_marks FromString CompareHashAndPassword userid codeString st _
                Hlone eq_refl)
      as (i & r & Hlong & Hfind & Hnth & Hunused & Hverdict & Hst).
    destruct (race_outcome FromString CompareHashAndPassword userid codeString
                st i r Hlong Hfind Hnth Hunused Hverdict n schedule Hn Hfin)
      as (Htrue & Hfalse & Hstore).
    repeat split; try assumption. congruence.
  - apply fair_schedule_finishes.
Qed.

Lemma concurrent_validations_one_winner_witness :
  fst (Demo.ValidateCode "alice" "ab cd ef ab ac" Demo.alice_table) = Ret (true, None)
  /\ (1 <= 3)%nat
  /\ Demo.run_schedule [0; 1; 2; 1; 0; 2]%nat
       (repeat (Called "alice" "ab cd ef ab ac") 3) Demo.alice_table
     = ([ Finished (Ret (false, Some "code already used"));
          Finished (Ret (true, None));
          Finished (Ret (false, Some "code already used")) ],
        [ mkRow "alice" "ab cd ef" Demo.secret_hash true;
          mkRow "alice" "gh ij kl" Demo.secret_hash true;
          mkRow "bob" "ab cd ef" Demo.secret_hash false ])
  /\ count returned_true
       (fst (Demo.run_schedule [0; 1; 2; 1; 0; 2]%nat
               (repeat (Called "alice" "ab cd ef ab ac") 3) Demo.alice_table)) = 1%nat
  /\ count returned_false
       (fst (Demo.run_schedule [0; 1; 2; 1; 0; 2]%nat
               (repeat (Called "alice" "ab cd ef ab ac") 3) Demo.alice_table)) = (3 - 1)%nat.
Proof.
  assert (Hlone : fst (Demo.ValidateCode "alice" "ab cd ef ab ac" Demo.alice_table)
                  = Ret (true, None)) by reflexivity.
  assert (Hn : (1 <= 3)%nat) by lia.
  assert (Hrun : Demo.run_schedule [0; 1; 2; 1; 0; 2]%nat
                   (repeat (Called "alice" "ab cd ef ab ac") 3) Demo.alice_table
                 = ([ Finished (Ret (false, Some "code already used"));
                      Finished (Ret (true, None));
                      Finished (Ret (false, Some "code already used")) ],
                    [ mkRow "alice" "ab cd ef" Demo.secret_hash true;
                      mkRow "alice" "gh ij kl" Demo.secret_hash true;
                      mkRow "bob" "ab cd ef" Demo.secret_hash false ])) by reflexivity.
  split; [exact Hlone | split; [exact Hn | split; [exact Hrun|]]].
  pose proof (concurrent_validations_one_winner
                Demo.FromString Demo.CompareHashAndPassword
                "alice" "ab cd ef ab ac" Demo.alice_table 3
                [0; 1; 2; 1; 0; 2]%nat Hlone Hn) as [Hone _].
  destruct (Hone eq_refl) as (Htrue & Hfalse & _).
  split; [exact Htrue | exact Hfalse].
Defined.

(** Another interleaving of the same race: the late thread looks the code up
    only after it has been consumed. *)
Example race_late_lookup :
  fst (Demo.run_schedule [0; 0; 1; 2; 2; 1]%nat
         (repeat (Called "alice" "ab cd ef ab ac") 3) Demo.alice_table)
  = [ Finished (Ret (true, None));
      Finished (Ret (false, None));
      Finished (Ret (false, None)) ].
Proof. reflexivity. Qed.

(** With a Storer whose update is unconditional, both threads of the
    two-step race are given true: the single winner rests on the Storer's
    conditional write alone. *)
Example race_on_unconditional_update :
  fst (Demo.run_schedule [0; 1; 0; 1]%nat
         (repeat (Called "alice" "ab cd ef ab ac") 2) (mkLax Demo.alice_table))
  = [ Finished (Ret (true, None)); Finished (Ret (true, None)) ].
Proof. reflexivity. Qed.

(** * Further properties of the package *)

(** ** The entropy draw, continued *)


Section EntropyMore.

Context {R : Type}.
Variable rand_source : R -> nat -> bytes * option error * R.




End EntropyMore.



Example cryptoBytes_partial_read_error :
  cryptoBytes Demo.tape_source 16 [Byte.x0a; Byte.x0b]
  = (Ret ((Byte.x0a :: Byte.x0b :: repeat Byte.x00 14)%list, Some "unexpected EOF"), []).
Proof. reflexivity. Qed.

(** ** Issuing codes, continued *)

Section IssuingMore.

Context {R : Type}.
Variable rand_source : R -> nat -> bytes * option error * R.

(** The error of [CreateCodes] is the error of its first entropy draw, or,
    when that draw is accepted, the error of the second. *)
Lemma CreateCodes_first_pass
  (ToPhrase : bytes -> list string * option error)
  (GenerateFromPassword : R -> bytes -> Z -> bytes * option error * R)
  {S : Type} `{Storer S} (userid : string) (r : R) (st : S) :
  exists (e : error) (r' : R),
    CreateCodes rand_source ToPhrase GenerateFromPassword userid (r, st)
    = (Ret (repeat zeroBackupKey 5, Some e), (r', st))
    /\ ((exists buf, cryptoBytes rand_source recoveryKeyLen r = (Ret (buf, Some e), r'))
        \/ (exists buf r1 nbuf,
              cryptoBytes rand_source recoveryKeyLen r = (Ret (buf, None), r1)
              /\ cryptoBytes rand_source recoveryNameLen r1 = (Ret (nbuf, Some e), r'))).
Proof.
  unfold CreateCodes.
  change (Z.to_nat numRecoveryKeys) with 5%nat.
  cbn [repeat List.length seq for_fold].
  destruct (cryptoBytes_key_returns rand_source r) as (buf & err & r1 & Hkey).
  unfold_body. rewrite Hkey.
  destruct err as [e|]; cbv beta iota; cbn [fst snd].
  - exists e, r1. split; [reflexivity|]. left. now exists buf.
  - destruct (cryptoBytes_name_fails rand_source r1) as (nbuf & e & r2 & Hname).
    rewrite Hname. cbv beta iota.
    exists e, r2. split; [reflexivity|]. right. now exists buf, r1, nbuf.
Qed.

(** X3: [CreateCodes] never reaches the mnemonic codec, the hasher or the
    Storer.  What it returns and the state it leaves the random source in are
    the same for every codec, every hasher, every Storer, every store and
    every user; the store is left as it was. *)
Theorem CreateCodes_depends_on_entropy_only
  (ToPhrase ToPhrase' : bytes -> list string * option error)
  (GenerateFromPassword GenerateFromPassword' : R -> bytes -> Z -> bytes * option error * R)
  (S S' : Type) (storer : Storer S) (storer' : Storer S')
  (userid userid' : string) (r : R) (st : S) (st' : S') :
  fst (CreateCodes rand_source ToPhrase GenerateFromPassword userid (r, st))
  = fst (CreateCodes rand_source ToPhrase' GenerateFromPassword' userid' (r, st'))
  /\ fst (snd (CreateCodes rand_source ToPhrase GenerateFromPassword userid (r, st)))
     = fst (snd (CreateCodes rand_source ToPhrase' GenerateFromPassword' userid' (r, st')))
  /\ snd (snd (CreateCodes rand_source ToPhrase GenerateFromPassword userid (r, st))) = st
  /\ snd (snd (CreateCodes rand_source ToPhrase' GenerateFromPassword' userid' (r, st'))) = st'.
Proof.
  destruct (CreateCodes_first_pass ToPhrase GenerateFromPassword userid r st)
    as (e1 & r1 & -> & Hwhy1).
  destruct (CreateCodes_first_pass ToPhrase' GenerateFromPassword' userid' r st')
    as (e2 & r2 & -> & Hwhy2).
  cbn [fst snd].
  assert (Hsame : e1 = e2 /\ r1 = r2).
  { destruct Hwhy1 as [(buf1 & Hk1)|(buf1 & m1 & nbuf1 & Hk1 & Hn1)];
      destruct Hwhy2 as [(buf2 & Hk2)|(buf2 & m2 & nbuf2 & Hk2 & Hn2)];
      rewrite Hk1 in Hk2; try discriminate.
    - injection Hk2 as _ -> ->. now split.
    - injection Hk2 as _ <-. rewrite Hn1 in Hn2. injection Hn2 as _ -> ->. now split. }
  destruct Hsame as [-> ->]. repeat split.
Qed.

End IssuingMore.

(** ** The read-only operations, continued *)

(** X4: the backup method is supported exactly when some name validates:
    [IsSupported] returns true if and only if [ValidateName] returns
    [(true, nil)] for some name, on the same store and with the same store
    left behind. *)
Theorem IsSupported_iff_some_name_validates
  {S : Type} `{Storer S} (userid : string) (st st' : S) :
  IsSupported userid st = (Ret true, st')
  <-> exists name, ValidateName userid name st = (Ret (true, None), st').
Proof.
  rewrite IsSupported_eq. split.
  - intros Hsup. injection Hsup as Hb Hst.
    destruct (snd (fst (GetBackupCodes st userid))) as [e|] eqn:Herr; [discriminate|].
    apply existsb_exists in Hb as (c & Hin & Hc).
    exists (GetName c). rewrite ValidateName_eq, Herr, Hst.
    replace (existsb (unused_named (GetName c)) (fst (fst (GetBackupCodes st userid))))
      with true; [reflexivity|].
    symmetry. apply existsb_exists. exists c. split; [assumption|].
    unfold unused_named. unfold unused in Hc. now rewrite String.eqb_refl, Hc.
  - intros (name & Hval). rewrite ValidateName_eq in Hval.
    injection Hval as Hres Hst. rewrite Hst.
    destruct (snd (fst (GetBackupCodes st userid))) as [e|]; [discriminate|].
    injection Hres as Hb.
    apply existsb_exists in Hb as (c & Hin & Hc).
    replace (existsb unused (fst (fst (GetBackupCodes st userid)))) with true; [reflexivity|].
    symmetry. apply existsb_exists. exists c. split; [assumption|].
    unfold unused_named in Hc. apply andb_true_iff in Hc as [_ Hc]. exact Hc.
Qed.

(** ** Validating a code, continued *)

Section ValidationMore.

Variable FromString : string -> bytes * option error.
Variable CompareHashAndPassword : bytes -> bytes -> option error.
Context {S : Type} `{Storer S}.

(** X5: [ValidateCode] has no errors of its own.  An error it returns comes
    with the result false and is the Storer's: the error of the lookup, the
    store being as the lookup left it, or the error of the update of the code
    the lookup found. *)
Theorem ValidateCode_error_provenance
  (userid codeString : string) (st st' : S) (b : bool) (e : error) :
  ValidateCode FromString CompareHashAndPassword userid codeString st
  = (Ret (b, Some e), st') ->
  b = false
  /\ ((snd (fst (GetBackupCodeByName st userid (code_name codeString))) = Some e
       /\ st' = snd (GetBackupCodeByName st userid (code_name codeString)))
      \/ (exists (code : BackupCode) (st1 : S),
            GetBackupCodeByName st userid (code_name codeString) = (Some code, None, st1)
            /\ UpdateBackupCode st1 (SetUsed code) = (Some e, st'))).
Proof.
  intros Hrun.
  destruct (Nat.lt_ge_cases (words codeString) 3) as [Hshort|Hlong].
  { rewrite ValidateCode_short in Hrun by assumption. discriminate. }
  rewrite ValidateCode_long in Hrun by assumption.
  destruct (GetBackupCodeByName st userid (code_name codeString)) as [[c lerr] st1].
  cbn [fst snd lookup_verdict] in Hrun |- *.
  destruct lerr as [le|].
  - assert (Hrun' : (Ret (false, Some le), st1) = (Ret (b, Some e), st'))
      by (destruct c; exact Hrun).
    injection Hrun' as <- <- <-. split; [reflexivity|]. now left.
  - destruct c as [code|]; [|discriminate].
    destruct (negb _ || IsUsed code); [discriminate|].
    destruct (CompareHashAndPassword _ _); [discriminate|].
    destruct (UpdateBackupCode st1 (SetUsed code)) as [[ue|] st2] eqn:Hupdate;
      [|discriminate].
    injection Hrun as <- <- <-. split; [reflexivity|].
    right. now exists code, st1.
Qed.

(** X6: a validation that fails writes nothing.  When [ValidateCode] panics
    the store is untouched, and when it returns [(false, nil)] the store is
    as the lookup left it: [UpdateBackupCode] was not called. *)
Theorem ValidateCode_failure_writes_nothing (userid codeString : string) (st : S) :
  (forall msg,
      fst (ValidateCode FromString CompareHashAndPassword userid codeString st) = Panic msg ->
      snd (ValidateCode FromString CompareHashAndPassword userid codeString st) = st)
  /\ (fst (ValidateCode FromString CompareHashAndPassword userid codeString st)
      = Ret (false, None) ->
      snd (ValidateCode FromString CompareHashAndPassword userid codeString st)
      = snd (GetBackupCodeByName st userid (code_name codeString))).
Proof.
  destruct (Nat.lt_ge_cases (words codeString) 3) as [Hshort|Hlong].
  { rewrite ValidateCode_short by assumption. cbn [fst snd]. split; [reflexivity|discriminate]. }
  rewrite ValidateCode_long by assumption.
  destruct (lookup_verdict _ _ _ _) as [code|result].
  - destruct (UpdateBackupCode _ code) as [[ue|] st2]; cbn [fst snd];
      split; intros; discriminate.
  - cbn [fst snd]. split; [discriminate | reflexivity].
Qed.

End ValidationMore.

Lemma ValidateCode_error_provenance_witness :
  Demo.ValidateCode "alice" "ab cd ef ab ac" (mkFlaky Demo.alice_table [false; true])
  = (Ret (false, Some unreachable), mkFlaky Demo.alice_table [])
  /\ false = false
  /\ ((snd (fst (GetBackupCodeByName (mkFlaky Demo.alice_table [false; true]) "alice"
                   (code_name "ab cd ef ab ac"))) = Some unreachable
       /\ mkFlaky Demo.alice_table []
          = snd (GetBackupCodeByName (mkFlaky Demo.alice_table [false; true]) "alice"
                   (code_name "ab cd ef ab ac")))
      \/ (exists (code : BackupCode) (st1 : FlakyStore),
            GetBackupCodeByName (mkFlaky Demo.alice_table [false; true]) "alice"
              (code_name "ab cd ef ab ac") = (Some code, None, st1)
            /\ UpdateBackupCode st1 (SetUsed code)
               = (Some unreachable, mkFlaky Demo.alice_table []))).
Proof.
  assert (Hrun : Demo.ValidateCode "alice" "ab cd ef ab ac"
                   (mkFlaky Demo.alice_table [false; true])
                 = (Ret (false, Some unreachable), mkFlaky Demo.alice_table []))
    by reflexivity.
  split; [exact Hrun|].
  exact (ValidateCode_error_provenance Demo.FromString Demo.CompareHashAndPassword
           "alice" "ab cd ef ab ac" _ _ _ _ Hrun).
Defined.

Lemma ValidateCode_failure_writes_nothing_witness :
  (fst (Demo.ValidateCode "alice" "phrase" Demo.alice_table)
   = Panic "slice bounds out of range"
   /\ snd (Demo.ValidateCode "alice" "phrase" Demo.alice_table) = Demo.alice_table)
  /\ (fst (Demo.ValidateCode "alice" "ab cd ef ab ad" Demo.alice_table) = Ret (false, None)
      /\ snd (Demo.ValidateCode "alice" "ab cd ef ab ad" Demo.alice_table)
         = snd (GetBackupCodeByName Demo.alice_table "alice" (code_name "ab cd ef ab ad"))).
Proof.
  assert (Hpanic : fst (Demo.ValidateCode "alice" "phrase" Demo.alice_table)
                   = Panic "slice bounds out of range") by reflexivity.
  assert (Hfalse : fst (Demo.ValidateCode "alice" "ab cd ef ab ad" Demo.alice_table)
                   = Ret (false, None)) by reflexivity.
  split; (split; [assumption|]).
  - exact (proj1 (ValidateCode_failure_writes_nothing
                    Demo.FromString Demo.CompareHashAndPassword
                    "alice" "phrase" Demo.alice_table) _ Hpanic).
  - exact (proj2 (ValidateCode_failure_writes_nothing
                    Demo.FromString Demo.CompareHashAndPassword
                    "alice" "ab cd ef ab ad" Demo.alice_table) Hfalse).
Defined.

(** ** Reading a code string *)

Lemma str_app_nil_r (s : string) : (s ++ "")%string = s.
Proof. induction s as [|c s IH]; cbn; [reflexivity | now rewrite IH]. Qed.

Lemma str_app_assoc (a b c : string) : ((a ++ b) ++ c)%string = (a ++ (b ++ c))%string.
Proof. induction a as [|x a IH]; cbn; [reflexivity | now rewrite IH]. Qed.

(** One step of [strings.Split] on a single space. *)
Lemma split_space_step (c : ascii) (rest cur : string) :
  split_from " " (String c rest) 0 cur
  = if Ascii.eqb c " "
    then cur :: split_from " " rest 0 ""
    else split_from " " rest 0 (cur ++ String c "").
Proof.
  cbn [split_from String.prefix String.length Nat.sub].
  destruct (ascii_dec " " c) as [<-|Hne].
  - rewrite Ascii.eqb_refl. now destruct rest.
  - assert (Hc : Ascii.eqb c " " = false) by (apply Ascii.eqb_neq; congruence).
    now rewrite Hc.
Qed.

Lemma split_space_nonempty (s cur : string) : split_from " " s 0 cur <> [].
Proof.
  revert cur. induction s as [|c s IH]; intros cur.
  - discriminate.
  - rewrite split_space_step. destruct (Ascii.eqb c " "); [discriminate | apply IH].
Qed.

Lemma Join_cons (x : string) (l : list string) (sep : string) :
  l <> [] -> Join (x :: l) sep = (x ++ sep ++ Join l sep)%string.
Proof. destruct l; [congruence | reflexivity]. Qed.

(** [strings.Join] undoes [strings.Split] on a space. *)
Lemma Join_split_space (s cur : string) :
  Join (split_from " " s 0 cur) " " = (cur ++ s)%string.
Proof.
  revert cur. induction s as [|c s IH]; intros cur.
  - cbn. now rewrite str_app_nil_r.
  - rewrite split_space_step. destruct (Ascii.eqb c " ") eqn:Hc.
    + apply Ascii.eqb_eq in Hc. subst c.
      rewrite Join_cons by apply split_space_nonempty.
      now rewrite IH.
    + rewrite IH, str_app_assoc. reflexivity.
Qed.

Lemma Join_Split_space (s : string) : Join (Split s " ") " " = s.
Proof. unfold Split. apply Join_split_space. Qed.

(** The words of two strings joined by a space are the words of the one
    followed by the words of the other. *)
Lemma split_space_app (a b cur : string) :
  split_from " " (a ++ String " " b) 0 cur
  = (split_from " " a 0 cur ++ split_from " " b 0 "")%list.
Proof.
  revert cur. induction a as [|c a IH]; intros cur.
  - cbn [append]. rewrite split_space_step. reflexivity.
  - cbn [append]. rewrite !split_space_step.
    destruct (Ascii.eqb c " "); [cbn [app]; now rewrite IH | apply IH].
Qed.

Lemma Split_space_app (a b : string) :
  Split (a ++ " " ++ b) " " = (Split a " " ++ Split b " ")%list.
Proof. unfold Split. apply split_space_app. Qed.

Lemma split_space_length (s cur : string) :
  List.length (split_from " " s 0 cur) = Datatypes.S (count_spaces s).
Proof.
  revert cur. induction s as [|c s IH]; intros cur.
  - reflexivity.
  - rewrite split_space_step. cbn [count_spaces].
    destruct (Ascii.eqb c " "); cbn [List.length]; rewrite IH; reflexivity.
Qed.

(** The words of a code string are one more than its spaces. *)
Lemma words_count_spaces (s : string) : words s = Datatypes.S (count_spaces s).
Proof. unfold words, Split. apply split_space_length. Qed.

Lemma code_name_join (name key : string) :
  words name = 3%nat -> code_name (name ++ " " ++ key) = name.
Proof.
  intros Hname. unfold code_name, words in *.
  change (Z.to_nat recoveryNameLen) with 3%nat.
  rewrite Split_space_app, firstn_app, Hname, Nat.sub_diag.
  rewrite <- Hname at 1. rewrite firstn_all. cbn [firstn]. rewrite app_nil_r.
  apply Join_Split_space.
Qed.

Lemma code_secret_join (name key : string) :
  words name = 3%nat -> code_secret (name ++ " " ++ key) = key.
Proof.
  intros Hname. unfold code_secret, words in *.
  change (Z.to_nat recoveryNameLen) with 3%nat.
  rewrite Split_space_app, skipn_app, Hname, Nat.sub_diag.
  rewrite <- Hname at 1. rewrite skipn_all. cbn [skipn app].
  apply Join_Split_space.
Qed.

Lemma words_join (name key : string) :
  words (name ++ " " ++ key) = (words name + words key)%nat.
Proof. unfold words. now rewrite Split_space_app, length_app. Qed.

Lemma words_positive (s : string) : (1 <= words s)%nat.
Proof. rewrite words_count_spaces. lia. Qed.

(** X7: a name of three words and a secret phrase, joined by a space, are
    read back by [ValidateCode] as they were: the name looked up is the name,
    and the phrase handed to the decoder is the secret phrase, whatever it
    contains. *)
Theorem code_string_round_trip (name key : string) :
  words name = 3%nat ->
  code_name (name ++ " " ++ key) = name
  /\ code_secret (name ++ " " ++ key) = key
  /\ (3 < words (name ++ " " ++ key))%nat.
Proof.
  intros Hname. split; [now apply code_name_join|].
  split; [now apply code_secret_join|].
  rewrite words_join, Hname. pose proof (words_positive key). lia.
Qed.

Lemma code_string_round_trip_witness :
  words "ab cd ef" = 3%nat
  /\ code_name ("ab cd ef" ++ " " ++ "ab  ac ") = "ab cd ef"
  /\ code_secret ("ab cd ef" ++ " " ++ "ab  ac ") = "ab  ac "
  /\ (3 < words ("ab cd ef" ++ " " ++ "ab  ac "))%nat.
Proof.
  assert (Hname : words "ab cd ef" = 3%nat) by reflexivity.
  split; [exact Hname|].
  exact (code_string_round_trip "ab cd ef" "ab  ac " Hname).
Defined.

Section Acceptance.

Variable FromString : string -> bytes * option error.
Variable CompareHashAndPassword : bytes -> bytes -> option error.
Context {S : Type} `{Storer S}.

(** X8: the code string made of a name of three words, a space and a secret
    phrase is accepted whenever the Storer finds an unused code under that
    name whose hash verifies against the decoded phrase and the mark-used
    update goes through; the store returned is the one the update left. *)
Theorem ValidateCode_accepts_matching_code
  (userid name key : string) (st st1 st2 : S) (code : BackupCode) :
  words name = 3%nat ->
  GetBackupCodeByName st userid name = (Some code, None, st1) ->
  GetName code = name ->
  IsUsed code = false ->
  CompareHashAndPassword (list_byte_of_string (GetHashedSecret code))
    (fst (FromString key)) = None ->
  UpdateBackupCode st1 (SetUsed code) = (None, st2) ->
  ValidateCode FromString CompareHashAndPassword userid (name ++ " " ++ key) st
  = (Ret (true, None), st2).
Proof.
  intros Hwords Hlookup Hname Hused Hhash Hupdate.
  rewrite ValidateCode_long
    by (rewrite words_join, Hwords; pose proof (words_positive key); lia).
  rewrite !code_name_join by assumption.
  rewrite Hlookup. cbn [fst snd lookup_verdict].
  rewrite code_name_join, code_secret_join by assumption.
  rewrite Hname, String.eqb_refl, Hused, Hhash. cbn [negb orb].
  now rewrite Hupdate.
Qed.

(** X9: [ValidateCode] panics exactly on the code strings with fewer than
    two spaces, whatever the store and the codec; a code string with exactly
    two spaces is taken whole as the name, and the empty string goes to the
    decoder as its secret phrase. *)
Theorem ValidateCode_panics_iff_few_spaces (userid codeString : string) (st : S) :
  (returns (fst (ValidateCode FromString CompareHashAndPassword userid codeString st)) = false
   <-> (count_spaces codeString < 2)%nat)
  /\ (count_spaces codeString = 2%nat ->
      code_name codeString = codeString /\ code_secret codeString = "").
Proof.
  split.
  - destruct (Nat.lt_ge_cases (words codeString) 3) as [Hshort|Hlong].
    + rewrite ValidateCode_short by assumption. cbn [fst returns].
      rewrite words_count_spaces in Hshort. split; [lia | reflexivity].
    + pose proof (ValidateCode_long_returns FromString CompareHashAndPassword
                    userid codeString st Hlong) as Hret.
      rewrite Hret. rewrite words_count_spaces in Hlong. split; [discriminate | lia].
  - intros Htwo.
    assert (Hwords : words codeString = 3%nat) by (rewrite words_count_spaces; lia).
    unfold code_name, code_secret, words in *.
    change (Z.to_nat recoveryNameLen) with 3%nat.
    rewrite <- Hwords, firstn_all, skipn_all. split; [apply Join_Split_space | reflexivity].
Qed.

End Acceptance.

Lemma ValidateCode_accepts_matching_code_witness :
  words "ab cd ef" = 3%nat
  /\ GetBackupCodeByName Demo.alice_table "alice" "ab cd ef"
     = (Some (mkCode 0 "alice" "ab cd ef" Demo.secret_hash false), None, Demo.alice_table)
  /\ UpdateBackupCode Demo.alice_table
       (SetUsed (mkCode 0 "alice" "ab cd ef" Demo.secret_hash false))
     = (None, [ mkRow "alice" "ab cd ef" Demo.secret_hash true;
                mkRow "alice" "gh ij kl" Demo.secret_hash true;
                mkRow "bob" "ab cd ef" Demo.secret_hash false ])
  /\ Demo.ValidateCode "alice" ("ab cd ef" ++ " " ++ "ab ac") Demo.alice_table
     = (Ret (true, None),
        [ mkRow "alice" "ab cd ef" Demo.secret_hash true;
          mkRow "alice" "gh ij kl" Demo.secret_hash true;
          mkRow "bob" "ab cd ef" Demo.secret_hash false ]).
Proof.
  assert (Hwords : words "ab cd ef" = 3%nat) by reflexivity.
  assert (Hlookup : GetBackupCodeByName Demo.alice_table "alice" "ab cd ef"
                    = (Some (mkCode 0 "alice" "ab cd ef" Demo.secret_hash false), None,
                       Demo.alice_table)) by reflexivity.
  assert (Hupdate : UpdateBackupCode Demo.alice_table
                      (SetUsed (mkCode 0 "alice" "ab cd ef" Demo.secret_hash false))
                    = (None, [ mkRow "alice" "ab cd ef" Demo.secret_hash true;
                               mkRow "alice" "gh ij kl" Demo.secret_hash true;
                               mkRow "bob" "ab cd ef" Demo.secret_hash false ]))
    by reflexivity.
  split; [exact Hwords | split; [exact Hlookup | split; [exact Hupdate|]]].
  exact (ValidateCode_accepts_matching_code Demo.FromString Demo.CompareHashAndPassword
           "alice" "ab cd ef" "ab ac" _ _ _ _
           Hwords Hlookup eq_refl eq_refl eq_refl Hupdate).
Defined.

Lemma ValidateCode_panics_iff_few_spaces_witness :
  count_spaces "ab cd ef" = 2%nat
  /\ code_name "ab cd ef" = "ab cd ef"
  /\ code_secret "ab cd ef" = ""
  /\ (returns (fst (Demo.ValidateCode "alice" "ab cd" Demo.alice_table)) = false
      <-> (count_spaces "ab cd" < 2)%nat).
Proof.
  assert (Htwo : count_spaces "ab cd ef" = 2%nat) by reflexivity.
  split; [exact Htwo|].
  destruct (proj2 (ValidateCode_panics_iff_few_spaces
                     Demo.FromString Demo.CompareHashAndPassword
                     "alice" "ab cd ef" Demo.alice_table) Htwo) as [Hname Hsecret].
  split; [exact Hname | split; [exact Hsecret|]].
  exact (proj1 (ValidateCode_panics_iff_few_spaces
                  Demo.FromString Demo.CompareHashAndPassword
                  "alice" "ab cd" Demo.alice_table)).
Defined.

Example ValidateCode_three_words :
  Demo.ValidateCode "alice" "ab cd ef" Demo.alice_table
  = (Ret (false, None), Demo.alice_table).
Proof. reflexivity. Qed.

(** ** From the key handed out to the code string typed in *)





(** ** Which error [CreateCodes] returns *)

Section IssuingErrors.

Context {R : Type}.
Variable rand_source : R -> nat -> bytes * option error * R.
Variable ToPhrase : bytes -> list string * option error.
Variable GenerateFromPassword : R -> bytes -> Z -> bytes * option error * R.
Context {S : Type} `{Storer S}.

Lemma cryptoBytes_source_error (size : Z) (r r' : R) (data : bytes) (e : error) :
  (0 <= size)%Z ->
  rand_source r (Z.to_nat size) = (data, Some e, r') ->
  exists buf, cryptoBytes rand_source size r = (Ret (buf, Some e), r').
Proof.
  intros Hsize Hsrc. unfold cryptoBytes, make_bytes.
  replace (size <? 0)%Z with false by (symmetry; apply Z.ltb_ge; lia).
  unfold rand_Read. rewrite repeat_length, Hsrc. eauto.
Qed.

(** X10: the error [CreateCodes] returns.  When the random source fails on
    the first read, of sixteen bytes, its error is returned as it is and no
    second read is made; when the source serves the sixteen bytes and then
    answers the read of three bytes without error, the error returned is the
    entropy error of [cryptoBytes], after exactly these two reads. *)
Theorem CreateCodes_error_returned (userid : string) (r r1 : R) (st : S) (d1 : bytes) :
  (forall e : error,
      rand_source r 16 = (d1, Some e, r1) ->
      CreateCodes rand_source ToPhrase GenerateFromPassword userid (r, st)
      = (Ret (repeat zeroBackupKey 5, Some e), (r1, st)))
  /\ (forall (d2 : bytes) (r2 : R),
         rand_source r 16 = (d1, None, r1) ->
         (16 <= List.length d1)%nat ->
         rand_source r1 3 = (d2, None, r2) ->
         CreateCodes rand_source ToPhrase GenerateFromPassword userid (r, st)
         = (Ret (repeat zeroBackupKey 5,
                 Some "BackupController.CreateCodes entropy error"), (r2, st))).
Proof.
  split.
  - intros e Hsrc.
    destruct (CreateCodes_first_pass rand_source ToPhrase GenerateFromPassword userid r st)
      as (e' & r' & -> & Hwhy).
    destruct (cryptoBytes_source_error recoveryKeyLen r r1 d1 e) as (buf & Hkey);
      [unfold recoveryKeyLen; cbn; lia | exact Hsrc |].
    destruct Hwhy as [(buf' & Hk)|(buf' & m & nbuf & Hk & _)];
      rewrite Hkey in Hk; [|discriminate].
    now injection Hk as _ <- <-.
  - intros d2 r2 Hsrc1 Hlen Hsrc2.
    destruct (CreateCodes_first_pass rand_source ToPhrase GenerateFromPassword userid r st)
      as (e' & r' & -> & Hwhy).
    assert (Hkey : exists buf, cryptoBytes rand_source recoveryKeyLen r = (Ret (buf, None), r1)).
    { unfold cryptoBytes. change (make_bytes recoveryKeyLen) with (Ret (A := bytes) (repeat Byte.x00 16)).
      cbv beta iota. unfold rand_Read. rewrite repeat_length, Hsrc1.
      replace (Nat.min (List.length d1) 16) with 16%nat by lia.
      change (Z.of_nat 16 =? recoveryKeyLen)%Z with true. cbn [negb]. eauto. }
    destruct Hkey as (buf & Hkey).
    assert (Hname : exists nbuf,
               cryptoBytes rand_source recoveryNameLen r1
               = (Ret (nbuf, Some "BackupController.CreateCodes entropy error"), r2)).
    { unfold cryptoBytes.
      change (make_bytes recoveryNameLen) with (Ret (A := bytes) (repeat Byte.x00 3)).
      cbv beta iota. unfold rand_Read. rewrite repeat_length, Hsrc2.
      assert (Hne : (Z.of_nat (Nat.min (List.length d2) 3) =? recoveryKeyLen)%Z = false).
      { apply Z.eqb_neq. unfold recoveryKeyLen. cbn. lia. }
      rewrite Hne. cbn [negb]. eauto. }
    destruct Hname as (nbuf & Hname).
    destruct Hwhy as [(buf' & Hk)|(buf' & m & nbuf' & Hk & Hn)];
      rewrite Hkey in Hk; [discriminate|].
    injection Hk as _ <-. rewrite Hname in Hn. now injection Hn as _ <- <-.
Qed.

End IssuingErrors.

Lemma CreateCodes_error_returned_witness :
  (Demo.tape_source [Byte.x01; Byte.x02] 16
   = ([Byte.x01; Byte.x02], Some "unexpected EOF", [])
   /\ Demo.CreateCodes "alice" ([Byte.x01; Byte.x02], Demo.alice_table)
      = (Ret (repeat zeroBackupKey 5, Some "unexpected EOF"), ([], Demo.alice_table)))
  /\ (Demo.tape_source (repeat Byte.x07 20) 16
      = (repeat Byte.x07 16, None, repeat Byte.x07 4)
      /\ (16 <= List.length (repeat Byte.x07 16))%nat
      /\ Demo.tape_source (repeat Byte.x07 4) 3
         = (repeat Byte.x07 3, None, [Byte.x07])
      /\ Demo.CreateCodes "alice" (repeat Byte.x07 20, Demo.alice_table)
         = (Ret (repeat zeroBackupKey 5,
                 Some "BackupController.CreateCodes entropy error"),
            ([Byte.x07], Demo.alice_table))).
Proof.
  assert (Hfail : Demo.tape_source [Byte.x01; Byte.x02] 16
                  = ([Byte.x01; Byte.x02], Some "unexpected EOF", [])) by reflexivity.
  assert (Hfirst : Demo.tape_source (repeat Byte.x07 20) 16
                   = (repeat Byte.x07 16, None, repeat Byte.x07 4)) by reflexivity.
  assert (Hlen : (16 <= List.length (repeat Byte.x07 16))%nat) by (cbn; lia).
  assert (Hsecond : Demo.tape_source (repeat Byte.x07 4) 3
                    = (repeat Byte.x07 3, None, [Byte.x07])) by reflexivity.
  split.
  - split; [exact Hfail|].
    exact (proj1 (CreateCodes_error_returned Demo.tape_source Demo.ToPhrase
                    Demo.GenerateFromPassword "alice" _ _ Demo.alice_table _) _ Hfail).
  - split; [exact Hfirst | split; [exact Hlen | split; [exact Hsecond|]]].
    exact (proj2 (CreateCodes_error_returned Demo.tape_source Demo.ToPhrase
                    Demo.GenerateFromPassword "alice" _ _ Demo.alice_table _)
             _ _ Hfirst Hlen Hsecond).
Defined.
